(** * Stock news monitor: a shallow embedding of [main.py]

    The script fetches the daily closes of one stock, computes the
    day-over-day change in percent, and, when the change passes a fixed
    threshold, fetches news and sends one text message per article.

    The embedding keeps Python's dynamic values ([pyval]), its exceptions
    ([exn], threaded through the [result] and [io] monads), binary64
    arithmetic (the IEEE 754 specification [spec_float] of the standard
    library, at precision 53) and the order of the external calls (a trace of
    [event]s).  The three remote services are inputs: a [world] gives the
    outcome of every call the script makes. *)

From Stdlib Require Import ZArith List String Ascii Bool Lia.
From Stdlib Require Import DecimalString.
From Stdlib Require Import Floats.SpecFloat.
Import ListNotations.

Local Open Scope string_scope.
Local Open Scope Z_scope.

(** ** Python values and exceptions *)

(** The exception classes the script can meet.  [RequestException] stands for
    the whole hierarchy of [requests.exceptions.RequestException] (connection
    errors, timeouts, [HTTPError] of [raise_for_status]); its argument is
    [str(e)].  [SystemExit] is what [exit()] raises.  [OtherException] is any
    other subclass of [Exception] a library may raise. *)
Inductive exn : Type :=
| RequestException (msg : string)
| KeyError (key : string)
| IndexError
| TypeError
| ValueError
| ZeroDivisionError
| OverflowError
| AttributeError
| SystemExit
| OtherException (msg : string).

Inductive result (A : Type) : Type :=
| Ok (a : A)
| Raise (e : exn).

Arguments Ok {A} a.
Arguments Raise {A} e.

Definition rbind {A B : Type} (r : result A) (k : A -> result B) : result B :=
  match r with
  | Ok a => k a
  | Raise e => Raise e
  end.

Declare Scope result_scope.
Delimit Scope result_scope with result.
Notation "x <- c ;; k" := (rbind c (fun x => k))
  (at level 61, c at next level, right associativity) : result_scope.

(** Binary64, as the specification of the standard library has it. *)
Definition float : Type := spec_float.
Definition prec : Z := 53.
Definition emax : Z := 1024.

(** What [response.json()] can return.  A [str] is the UTF-8 encoding of the
    Python string; a [dict] is the list of its items in insertion order, with
    pairwise distinct keys. *)
#[local] Unset Elimination Schemes.
Inductive pyval : Type :=
| PNone
| PBool (b : bool)
| PInt (z : Z)
| PFloat (f : float)
| PStr (s : string)
| PList (l : list pyval)
| PDict (d : list (string * pyval)).
#[local] Set Elimination Schemes.

(** [d.get(key)]: the value of the first (and only) item with this key. *)
Fixpoint dict_get (d : list (string * pyval)) (key : string) : option pyval :=
  match d with
  | [] => None
  | (k, v) :: d' => if String.eqb k key then Some v else dict_get d' key
  end.

(** [v[key]] for a string key: only a [dict] can be subscripted by a string. *)
Definition py_getitem (v : pyval) (key : string) : result pyval :=
  match v with
  | PDict d =>
      match dict_get d key with
      | Some x => Ok x
      | None => Raise (KeyError key)
      end
  | _ => Raise TypeError
  end.

(** [l[i]] on a Python list, for an index that is not negative. *)
Definition list_getitem {A : Type} (l : list A) (i : nat) : result A :=
  match nth_error l i with
  | Some x => Ok x
  | None => Raise IndexError
  end.

(** [v.items()]: only a [dict] has the method. *)
Definition py_items (v : pyval) : result (list (string * pyval)) :=
  match v with
  | PDict d => Ok d
  | _ => Raise AttributeError
  end.

(** ** Binary64 arithmetic *)

Definition fzero : float := S754_zero false.
Definition fsub (x y : float) : float := SFsub prec emax x y.
Definition fmul (x y : float) : float := SFmul prec emax x y.
Definition fdiv (x y : float) : float := SFdiv prec emax x y.
Definition fltb (x y : float) : bool := SFltb x y.

(** The nearest binary64 to an integer (ties to even); an integer beyond the
    range rounds to an infinity. *)
Definition float_of_Z (z : Z) : float := binary_normalize prec emax z 0 false.

Definition is_zero (x : float) : bool :=
  match x with
  | S754_zero _ => true
  | _ => false
  end.

(** [x / y] on floats: Python raises on a zero divisor, whatever [x] is. *)
Definition py_truediv (x y : float) : result float :=
  if is_zero y then Raise ZeroDivisionError else Ok (fdiv x y).

(** [round(x)] with one argument: the nearest integer, ties to even. *)
Definition round_half_even (m : positive) (e : Z) : Z :=
  match e with
  | Z0 => Zpos m
  | Zpos _ => Zpos m * 2 ^ e
  | Zneg k =>
      let d := 2 ^ Zpos k in
      let q := Zpos m / d in
      let r := Zpos m mod d in
      match 2 * r ?= d with
      | Lt => q
      | Gt => q + 1
      | Eq => if Z.even q then q else q + 1
      end
  end.

Definition py_round (x : float) : result Z :=
  match x with
  | S754_zero _ => Ok 0
  | S754_nan => Raise ValueError
  | S754_infinity _ => Raise OverflowError
  | S754_finite s m e =>
      Ok (if s then - round_half_even m e else round_half_even m e)
  end.

(** ** [float(v)]

    The literal grammar of [float] on a string.  Every character from
    code point 127 on is first replaced: a Unicode blank by a space, a
    Unicode decimal digit by its ASCII digit, anything else by a question
    mark (the tables are those of Unicode 14, as in CPython 3.11).  Then
    blanks are stripped at both ends, single underscores may separate digits,
    and there comes an optional sign and either [inf], [infinity] or [nan] in
    any case, or a decimal numeral with an optional fraction and an optional
    exponent.  The numeral is rounded once, to the nearest binary64 (ties to
    even). *)

Definition byte_value (c : ascii) : Z := Z.of_nat (nat_of_ascii c).

(** The six low bits of a continuation byte [10xxxxxx]. *)
Definition continuation_bits (c : ascii) : option Z :=
  let b := byte_value c in
  if (128 <=? b) && (b <? 192) then Some (b - 128) else None.

(** A code point in the range its length of encoding is for, surrogates
    left out. *)
Definition in_range (lo hi cp : Z) : option Z :=
  if (lo <=? cp) && (cp <=? hi) && negb ((55296 <=? cp) && (cp <=? 57343))
  then Some cp else None.

(** The code points of a UTF-8 string; [None] stands for a byte that starts
    no well-formed sequence. *)
Fixpoint code_points (l : list ascii) : list (option Z) :=
  match l with
  | [] => []
  | c :: r =>
      let b := byte_value c in
      if b <? 128 then Some b :: code_points r
      else if (192 <=? b) && (b <? 224) then
        match r with
        | c1 :: r1 =>
            match continuation_bits c1 with
            | Some x1 => in_range 128 2047 ((b - 192) * 64 + x1) :: code_points r1
            | None => None :: code_points r
            end
        | _ => None :: code_points r
        end
      else if (224 <=? b) && (b <? 240) then
        match r with
        | c1 :: c2 :: r2 =>
            match continuation_bits c1, continuation_bits c2 with
            | Some x1, Some x2 =>
                in_range 2048 65535 (((b - 224) * 64 + x1) * 64 + x2)
                  :: code_points r2
            | _, _ => None :: code_points r
            end
        | _ => None :: code_points r
        end
      else if (240 <=? b) && (b <? 248) then
        match r with
        | c1 :: c2 :: c3 :: r3 =>
            match continuation_bits c1, continuation_bits c2, continuation_bits c3 with
            | Some x1, Some x2, Some x3 =>
                in_range 65536 1114111
                  ((((b - 240) * 64 + x1) * 64 + x2) * 64 + x3)
                  :: code_points r3
            | _, _, _ => None :: code_points r
            end
        | _ => None :: code_points r
        end
      else None :: code_points r
  end.

(** The blanks of Unicode from code point 127 on. *)
Definition UNICODE_BLANKS : list Z :=
  [0x85; 0xa0; 0x1680; 0x2000; 0x2001; 0x2002; 0x2003; 0x2004; 0x2005; 0x2006;
   0x2007; 0x2008; 0x2009; 0x200a; 0x2028; 0x2029; 0x202f; 0x205f; 0x3000].

(** The digit zero of every script of Unicode but ASCII; its nine successors
    are the digits one to nine of the script. *)
Definition UNICODE_ZEROS : list Z :=
  [0x660; 0x6f0; 0x7c0; 0x966; 0x9e6; 0xa66; 0xae6; 0xb66; 0xbe6; 0xc66; 0xce6;
   0xd66; 0xde6; 0xe50; 0xed0; 0xf20; 0x1040; 0x1090; 0x17e0; 0x1810; 0x1946;
   0x19d0; 0x1a80; 0x1a90; 0x1b50; 0x1bb0; 0x1c40; 0x1c50; 0xa620; 0xa8d0;
   0xa900; 0xa9d0; 0xa9f0; 0xaa50; 0xabf0; 0xff10; 0x104a0; 0x10d30; 0x11066;
   0x110f0; 0x11136; 0x111d0; 0x112f0; 0x11450; 0x114d0; 0x11650; 0x116c0;
   0x11730; 0x118e0; 0x11950; 0x11c50; 0x11d50; 0x11da0; 0x16a60; 0x16ac0;
   0x16b50; 0x1d7ce; 0x1d7d8; 0x1d7e2; 0x1d7ec; 0x1d7f6; 0x1e140; 0x1e2f0;
   0x1e950; 0x1fbf0].

Definition unicode_decimal (cp : Z) : option Z :=
  match find (fun zero => (zero <=? cp) && (cp <? zero + 10)) UNICODE_ZEROS with
  | Some zero => Some (cp - zero)
  | None => None
  end.

(** The ASCII character [float] reads for a code point. *)
Definition to_ascii (cp : option Z) : ascii :=
  match cp with
  | Some n =>
      if n <? 127 then ascii_of_nat (Z.to_nat n)
      else if existsb (Z.eqb n) UNICODE_BLANKS then " "%char
      else
        match unicode_decimal n with
        | Some d => ascii_of_nat (Z.to_nat (48 + d))
        | None => "?"%char
        end
  | None => "?"%char
  end.

Definition is_space (c : ascii) : bool :=
  let n := nat_of_ascii c in
  ((9 <=? n)%nat && (n <=? 13)%nat) || (n =? 32)%nat.

Definition is_digit (c : ascii) : bool :=
  let n := nat_of_ascii c in
  (48 <=? n)%nat && (n <=? 57)%nat.

Definition digit_value (c : ascii) : Z := Z.of_nat (nat_of_ascii c - 48).

Definition to_lower (c : ascii) : ascii :=
  let n := nat_of_ascii c in
  if ((65 <=? n)%nat && (n <=? 90)%nat) then ascii_of_nat (n + 32) else c.

Fixpoint lstrip (l : list ascii) : list ascii :=
  match l with
  | c :: l' => if is_space c then lstrip l' else l
  | [] => []
  end.

Definition strip (l : list ascii) : list ascii := rev (lstrip (rev (lstrip l))).

(** An underscore must stand between two digits; [prev] is the character
    before [l]. *)
Fixpoint drop_underscores (prev : ascii) (l : list ascii) : option (list ascii) :=
  match l with
  | [] => if Ascii.eqb prev "_" then None else Some []
  | c :: l' =>
      if Ascii.eqb c "_" then
        if is_digit prev then drop_underscores c l' else None
      else if Ascii.eqb prev "_" && negb (is_digit c) then None
      else option_map (cons c) (drop_underscores c l')
  end.

Fixpoint span_digits (l : list ascii) : list ascii * list ascii :=
  match l with
  | c :: l' =>
      if is_digit c then let (ds, r) := span_digits l' in (c :: ds, r)
      else ([], l)
  | [] => ([], [])
  end.

Definition Z_of_digits (ds : list ascii) : Z :=
  fold_left (fun acc c => 10 * acc + digit_value c) ds 0.

Definition split_sign (l : list ascii) : bool * list ascii :=
  match l with
  | "-"%char :: r => (true, r)
  | "+"%char :: r => (false, r)
  | _ => (false, l)
  end.

(** The digits of a numeral as one integer, and its power of ten. *)
Definition parse_decimal (l : list ascii) : option (Z * Z) :=
  let (ip, r1) := span_digits l in
  let (fp, r2) :=
    match r1 with
    | "."%char :: r => span_digits r
    | _ => ([], r1)
    end in
  match (ip ++ fp)%list with
  | [] => None
  | ds =>
      let m := Z_of_digits ds in
      let e := - Z.of_nat (List.length fp) in
      match r2 with
      | [] => Some (m, e)
      | c :: r3 =>
          if Ascii.eqb (to_lower c) "e" then
            let (neg, r4) := split_sign r3 in
            match span_digits r4 with
            | ((_ :: _) as es, []) =>
                Some (m, e + (if neg then - Z_of_digits es else Z_of_digits es))
            | _ => None
            end
          else None
      end
  end.

(** The binary64 nearest to [(-1)^neg * m * 10^e]. *)
Definition float_of_decimal (neg : bool) (m e : Z) : float :=
  match m with
  | Zpos p =>
      match e with
      | Zneg k =>
          let '(q, e', l) := SFdiv_core_binary prec emax (Zpos p) 0 (10 ^ Zpos k) 0 in
          binary_round_aux prec emax neg q e' l
      | _ => binary_normalize prec emax (if neg then - (m * 10 ^ e) else m * 10 ^ e) 0 neg
      end
  | _ => S754_zero neg
  end.

Definition float_of_string (s : string) : option float :=
  match drop_underscores "000"%char
          (strip (map to_ascii (code_points (list_ascii_of_string s)))) with
  | None => None
  | Some l =>
      let (neg, r) := split_sign l in
      match parse_decimal r with
      | Some (m, e) => Some (float_of_decimal neg m e)
      | None =>
          let name := string_of_list_ascii (map to_lower r) in
          if String.eqb name "inf" || String.eqb name "infinity" then
            Some (S754_infinity neg)
          else if String.eqb name "nan" then Some S754_nan
          else None
      end
  end.

(** [float(v)]. *)
Definition py_float (v : pyval) : result float :=
  match v with
  | PNone => Raise TypeError
  | PBool b => Ok (float_of_Z (if b then 1 else 0))
  | PInt z =>
      match float_of_Z z with
      | S754_infinity _ => Raise OverflowError
      | f => Ok f
      end
  | PFloat f => Ok f
  | PStr s =>
      match float_of_string s with
      | Some f => Ok f
      | None => Raise ValueError
      end
  | PList _ => Raise TypeError
  | PDict _ => Raise TypeError
  end.

(** ** Strings *)

(** [str(n)] for an integer. *)
Definition string_of_Z (z : Z) : string := NilZero.string_of_int (Z.to_int z).

(** The code points of a string, each as its own string: a byte [10xxxxxx]
    continues the code point before it. *)
Definition is_continuation (c : ascii) : bool :=
  let n := nat_of_ascii c in
  (128 <=? n)%nat && (n <? 192)%nat.

Fixpoint utf8_chars (s : string) : list string :=
  match s with
  | EmptyString => []
  | String c s' =>
      let r := utf8_chars s' in
      match s', r with
      | String c' _, h :: t =>
          if is_continuation c' then String c h :: t
          else String c EmptyString :: r
      | _, _ => String c EmptyString :: r
      end
  end.

Definition concat_strings (l : list string) : string :=
  fold_right String.append EmptyString l.

(** [t] occurs in [s]. *)
Definition contains (s t : string) : Prop :=
  exists a b : string, s = a ++ t ++ b.

(** ** The change calculator *)

Definition UP : string := "🔺".
Definition DOWN : string := "🔻".

(** [calculate_price_difference(data)].  The two subscripts and conversions of
    line 59 run before those of line 60. *)
Definition calculate_price_difference (data : pyval) : result (Z * string) :=
  (items <- py_items data ;;
   let data_list := map snd items in
   bar0 <- list_getitem data_list 0 ;;
   close0 <- py_getitem bar0 "4. close" ;;
   yesterday_closing_price <- py_float close0 ;;
   bar1 <- list_getitem data_list 1 ;;
   close1 <- py_getitem bar1 "4. close" ;;
   day_before_yesterday_closing_price <- py_float close1 ;;
   let difference := fsub yesterday_closing_price day_before_yesterday_closing_price in
   let up_down := if fltb fzero difference then UP else DOWN in
   quotient <- py_truediv difference yesterday_closing_price ;;
   diff_percent <- py_round (fmul quotient (float_of_Z 100)) ;;
   Ok (diff_percent, up_down))%result.

(** A series of daily bars as the provider sends it: date, then close. *)
Definition bar (close : string) : pyval := PDict [("4. close", PStr close)].

Definition series (closes : list (string * string)) : pyval :=
  PDict (map (fun dc => (fst dc, bar (snd dc))) closes).

(** ** More of Python's data model *)

(** [bool(v)], as [if v:] tests it. *)
Definition py_truthy (v : pyval) : bool :=
  match v with
  | PNone => false
  | PBool b => b
  | PInt z => negb (z =? 0)
  | PFloat f => negb (is_zero f)
  | PStr s => negb (String.eqb s "")
  | PList l => match l with [] => false | _ => true end
  | PDict d => match d with [] => false | _ => true end
  end.

(** [l[:n]] on a sequence of length [len]: how many items it keeps. *)
Definition slice_stop (len : nat) (n : Z) : nat :=
  if n <? 0 then Z.to_nat (Z.of_nat len + n) else Z.to_nat n.

(** [v[:n]]: lists and strings can be sliced (a [dict] cannot: slices are no
    keys). *)
Definition py_slice_to (v : pyval) (n : Z) : result pyval :=
  match v with
  | PList l => Ok (PList (firstn (slice_stop (List.length l) n) l))
  | PStr s =>
      let cs := utf8_chars s in
      Ok (PStr (concat_strings (firstn (slice_stop (List.length cs) n) cs)))
  | _ => Raise TypeError
  end.

(** The items a [for] loop over [v] visits. *)
Definition py_iter (v : pyval) : result (list pyval) :=
  match v with
  | PList l => Ok l
  | PStr s => Ok (map PStr (utf8_chars s))
  | PDict d => Ok (map (fun kv => PStr (fst kv)) d)
  | _ => Raise TypeError
  end.

(** [v.get(key, default)]: only a [dict] has the method. *)
Definition py_get (v : pyval) (key : string) (default : pyval) : result pyval :=
  match v with
  | PDict d =>
      match dict_get d key with
      | Some x => Ok x
      | None => Ok default
      end
  | _ => Raise AttributeError
  end.

Fixpoint mapM {A B : Type} (f : A -> result B) (l : list A) : result (list B) :=
  match l with
  | [] => Ok []
  | x :: l' => (y <- f x ;; ys <- mapM f l' ;; Ok (y :: ys))%result
  end.

(** ** The outside world *)

(** The Twilio client: the credentials it was built from. *)
Record client : Type := Client { account_sid : pyval; auth_token : pyval }.

(** What a run does that can be seen from outside, and (as [Called]) the
    service functions the main block calls. *)
Inductive event : Type :=
| Called (function : string)
| Get (url : string) (params : list (string * pyval))
| Create (c : client) (body from_ to : string)
| Printed (text : string).

(** A response of [requests.get]: what [raise_for_status()] and [json()] do
    on it. *)
Record response : Type := {
  raise_for_status : result unit;
  json : result pyval
}.

(** [client.messages.create(...)] returns a message with a [status], or
    raises an [Exception] [e]; [error] is [str(e)]. *)
Inductive send_outcome : Type :=
| Sent (status : string)
| Failed (error : string).

(** The environment variables and the three services.  The outcome of the
    [n]-th [create] of a run (counting from 0) may depend on [n]. *)
Record world : Type := {
  environ : string -> option string;
  requests_get : string -> list (string * pyval) -> result response;
  messages_create : nat -> client -> string -> string -> string -> send_outcome
}.

Definition trace : Type := list event.

(** A computation of the script: it reads the world, extends the trace, and
    returns or raises. *)
Definition io (A : Type) : Type := world -> trace -> trace * result A.

Definition ret {A : Type} (a : A) : io A := fun _ t => (t, Ok a).

Definition bind {A B : Type} (c : io A) (k : A -> io B) : io B :=
  fun w t =>
    match c w t with
    | (t', Ok a) => k a w t'
    | (t', Raise e) => (t', Raise e)
    end.

Declare Scope io_scope.
Delimit Scope io_scope with io.
Notation "x <- c ;; k" := (bind c (fun x => k))
  (at level 61, c at next level, right associativity) : io_scope.
Notation "c ;; k" := (bind c (fun _ => k))
  (at level 61, right associativity) : io_scope.

Definition lift {A : Type} (r : result A) : io A := fun _ t => (t, r).

Definition log (e : event) : io unit := fun _ t => ((t ++ [e])%list, Ok tt).

Definition print (text : string) : io unit := log (Printed text).

(** [exit()]. *)
Definition py_exit {A : Type} : io A := lift (Raise SystemExit).

(** [os.environ.get(key)]: the value, or [None]. *)
Definition getenv (w : world) (key : string) : pyval :=
  match environ w key with
  | Some v => PStr v
  | None => PNone
  end.

Definition environ_get (key : string) : io pyval :=
  fun w t => (t, Ok (getenv w key)).

(** [try: c except requests.exceptions.RequestException as e: handler]. *)
Definition try_except_RequestException {A : Type}
    (c : io A) (handler : string -> io A) : io A :=
  fun w t =>
    match c w t with
    | (t', Raise (RequestException e)) => handler e w t'
    | r => r
    end.

(** A call of a service function from the main block. *)
Definition call {A : Type} (function : string) (c : io A) : io A :=
  (log (Called function) ;; c)%io.

Definition get (url : string) (params : list (string * pyval)) : io response :=
  fun w t => ((t ++ [Get url params])%list, requests_get w url params).

Definition is_create (e : event) : bool :=
  match e with
  | Create _ _ _ _ => true
  | _ => false
  end.

(** The sends attempted so far. *)
Definition creates (t : trace) : list event := filter is_create t.

Definition create (c : client) (body from_ to : string) : io send_outcome :=
  fun w t =>
    ((t ++ [Create c body from_ to])%list,
     Ok (messages_create w (List.length (creates t)) c body from_ to)).

Fixpoint for_each {A : Type} (l : list A) (body : A -> io unit) : io unit :=
  match l with
  | [] => ret tt
  | x :: l' => (body x ;; for_each l' body)%io
  end.

(** ** The script *)

Definition NL : string := String "010"%char EmptyString.

Definition VIRTUAL_TWILIO_NUMBER : string := "your virtual twilio number".
Definition VERIFIED_NUMBER : string := "your own phone number verified with Twilio".
Definition STOCK_NAME : string := "TSLA".
Definition COMPANY_NAME : string := "Tesla Inc".
Definition STOCK_ENDPOINT : string := "https://www.alphavantage.co/query".
Definition NEWS_ENDPOINT : string := "https://newsapi.org/v2/everything".
Definition PERCENTAGE_THRESHOLD : Z := 1.

Definition get_stock_data (stock_symbol : string) (api_key : pyval) : io pyval :=
  (let params :=
     [("function", PStr "TIME_SERIES_DAILY");
      ("symbol", PStr stock_symbol);
      ("apikey", api_key)] in
   response <- get STOCK_ENDPOINT params ;;
   lift (raise_for_status response) ;;
   body <- lift (json response) ;;
   lift (py_getitem body "Time Series (Daily)"))%io.

Definition get_news_articles (company_name : string) (api_key : pyval)
    (num_articles : Z) : io pyval :=
  (let params :=
     [("apiKey", api_key);
      ("qInTitle", PStr company_name);
      ("language", PStr "en");
      ("sortBy", PStr "relevancy")] in
   response <- get NEWS_ENDPOINT params ;;
   lift (raise_for_status response) ;;
   body <- lift (json response) ;;
   articles <- lift (py_getitem body "articles") ;;
   lift (py_slice_to articles num_articles))%io.

(** [Client(account_sid, auth_token)] stores the credentials and is taken to
    accept them.  The [match] is the [try] of the loop: [Sent] runs the rest
    of its body, [Failed] its [except Exception] handler. *)
Definition send_sms_messages (messages : list string)
    (account_sid auth_token : pyval) (from_number to_number : string) : io unit :=
  let client := Client account_sid auth_token in
  for_each messages (fun message_body =>
    (outcome <- create client message_body from_number to_number ;;
     match outcome with
     | Sent status => print ("Mensagem SMS enviada com status: " ++ status)
     | Failed e => print ("Erro ao enviar SMS: " ++ e)
     end)%io).

Section Script.

(** [repr(v)], which is what [str(v)] is for a float, a list and a dict:
    the interpreter's, not the script's. *)
Variable py_repr : pyval -> string.

(** [str(v)], as an f-string renders [{v}]. *)
Definition py_str (v : pyval) : string :=
  match v with
  | PNone => "None"
  | PBool b => if b then "True" else "False"
  | PInt z => string_of_Z z
  | PStr s => s
  | PFloat _ => py_repr v
  | PList _ => py_repr v
  | PDict _ => py_repr v
  end.

Definition format_article (stock_symbol : string) (diff_percent : Z)
    (up_down_emoji : string) (article : pyval) : result string :=
  (headline <- py_get article "title" (PStr "Título não disponível") ;;
   brief <- py_get article "description" (PStr "Descrição não disponível") ;;
   Ok (stock_symbol ++ ": " ++ up_down_emoji ++ string_of_Z diff_percent ++ "%"
       ++ NL ++ "Manchete: " ++ py_str headline ++ ". "
       ++ NL ++ "Resumo: " ++ py_str brief))%result.

Definition format_news_articles (articles : pyval) (stock_symbol : string)
    (diff_percent : Z) (up_down_emoji : string) : result (list string) :=
  (items <- py_iter articles ;;
   mapM (format_article stock_symbol diff_percent up_down_emoji) items)%result.

(** The main block.  The four keys are read when the module is loaded. *)
Definition main : io unit :=
  (STOCK_API_KEY <- environ_get "ALPHA_VANTAGE_API_KEY" ;;
   NEWS_API_KEY <- environ_get "NEWS_API_KEY" ;;
   TWILIO_SID <- environ_get "TWILIO_ACCOUNT_SID" ;;
   TWILIO_AUTH_TOKEN <- environ_get "TWILIO_AUTH_TOKEN" ;;
   stock_data <-
     try_except_RequestException
       (call "get_stock_data" (get_stock_data STOCK_NAME STOCK_API_KEY))
       (fun e => print ("Erro ao obter dados da ação: " ++ e) ;; py_exit) ;;
   change <-
     call "calculate_price_difference"
       (lift (calculate_price_difference stock_data)) ;;
   let '(diff_percent, up_down) := change in
   if Z.abs diff_percent >? PERCENTAGE_THRESHOLD then
     articles <-
       try_except_RequestException
         (call "get_news_articles" (get_news_articles COMPANY_NAME NEWS_API_KEY 3))
         (fun e => print ("Erro ao obter notícias: " ++ e) ;; ret (PList [])) ;;
     if py_truthy articles then
       formatted_messages <-
         call "format_news_articles"
           (lift (format_news_articles articles STOCK_NAME diff_percent up_down)) ;;
       call "send_sms_messages"
         (send_sms_messages formatted_messages TWILIO_SID TWILIO_AUTH_TOKEN
            VIRTUAL_TWILIO_NUMBER VERIFIED_NUMBER)
     else print "Nenhum artigo de notícia relevante encontrado."
   else
     print ("Variação de preço de " ++ string_of_Z diff_percent
            ++ "% não atingiu o limiar de " ++ string_of_Z PERCENTAGE_THRESHOLD
            ++ "%. Nenhuma notícia será enviada."))%io.

(** One run of the script, from an empty trace. *)
Definition run (w : world) : trace * result unit := main w [].

End Script.

(** ** Reading a run *)

(** What the price fetch and the news fetch of a run return or raise. *)
Definition price_fetch (w : world) : result pyval :=
  snd (get_stock_data STOCK_NAME (getenv w "ALPHA_VANTAGE_API_KEY") w []).

Definition news_fetch (w : world) : result pyval :=
  snd (get_news_articles COMPANY_NAME (getenv w "NEWS_API_KEY") 3 w []).

(** The two requests of a run, as they appear in its trace. *)
Definition price_request (w : world) : event :=
  Get STOCK_ENDPOINT
    [("function", PStr "TIME_SERIES_DAILY");
     ("symbol", PStr STOCK_NAME);
     ("apikey", getenv w "ALPHA_VANTAGE_API_KEY")].

Definition news_request (w : world) : event :=
  Get NEWS_ENDPOINT
    [("apiKey", getenv w "NEWS_API_KEY");
     ("qInTitle", PStr COMPANY_NAME);
     ("language", PStr "en");
     ("sortBy", PStr "relevancy")].

Definition is_news_request (e : event) : bool :=
  match e with
  | Get url _ => String.eqb url NEWS_ENDPOINT
  | _ => false
  end.

Definition is_call_of (function : string) (e : event) : bool :=
  match e with
  | Called f => String.eqb f function
  | _ => false
  end.

(** Nothing after the price fetch happened: no change was computed, no news
    was requested, nothing was formatted and no message was sent. *)
Definition no_partial_output (t : trace) : Prop :=
  forallb (fun e =>
    negb (is_call_of "calculate_price_difference" e
          || is_call_of "get_news_articles" e || is_news_request e
          || is_call_of "format_news_articles" e
          || is_call_of "send_sms_messages" e || is_create e)) t = true.

(** The run stopped before the news: nothing was requested from the news
    provider, nothing was formatted and no message was sent. *)
Definition no_news_no_messages (t : trace) : Prop :=
  forallb (fun e =>
    negb (is_call_of "get_news_articles" e || is_news_request e
          || is_call_of "format_news_articles" e
          || is_call_of "send_sms_messages" e || is_create e)) t = true.

(** No message was formatted or sent. *)
Definition no_messages (t : trace) : Prop :=
  forallb (fun e =>
    negb (is_call_of "format_news_articles" e
          || is_call_of "send_sms_messages" e || is_create e)) t = true.

(** The bar has a close that [float] accepts. *)
Definition numeric_bar (b : pyval) : Prop :=
  exists v c, py_getitem b "4. close" = Ok v /\ py_float v = Ok c.

(** A close for which [float] has no value: a string that is no numeral, or
    a value that is neither a number nor a string. *)
Definition non_numeric (v : pyval) : bool :=
  match v with
  | PStr s => match float_of_string s with Some _ => false | None => true end
  | PNone => true
  | PList _ => true
  | PDict _ => true
  | _ => false
  end.

(** The report the notifier prints after a send. *)
Definition send_report (o : send_outcome) : event :=
  match o with
  | Sent status => Printed ("Mensagem SMS enviada com status: " ++ status)
  | Failed e => Printed ("Erro ao enviar SMS: " ++ e)
  end.

(** The trace of a notifier that tries every message: the [n]-th send of the
    run, then its report, for each message in order. *)
Fixpoint attempts (w : world) (c : client) (from_ to : string) (n : nat)
    (messages : list string) : trace :=
  match messages with
  | [] => []
  | body :: rest =>
      Create c body from_ to
        :: send_report (messages_create w n c body from_ to)
        :: attempts w c from_ to (S n) rest
  end.

(** The reports of the main block. *)
Definition ABORT_REPORT : string := "Erro ao obter dados da ação: ".
Definition NEWS_ERROR_REPORT : string := "Erro ao obter notícias: ".
Definition NO_ARTICLES_REPORT : string :=
  "Nenhum artigo de notícia relevante encontrado.".
Definition NO_CHANGE_REPORT (percent : Z) : string :=
  "Variação de preço de " ++ string_of_Z percent
  ++ "% não atingiu o limiar de " ++ string_of_Z PERCENTAGE_THRESHOLD
  ++ "%. Nenhuma notícia será enviada.".

(** The placeholders of the formatter, and the layout of a message around
    its headline and its summary. *)
Definition NO_TITLE : string := "Título não disponível".
Definition NO_DESCRIPTION : string := "Descrição não disponível".

Definition message_layout (stock_symbol : string) (diff_percent : Z)
    (up_down_emoji headline brief : string) : string :=
  stock_symbol ++ ": " ++ up_down_emoji ++ string_of_Z diff_percent ++ "%"
  ++ NL ++ "Manchete: " ++ headline ++ ". " ++ NL ++ "Resumo: " ++ brief.

(** The text the formatter puts for a key of an article. *)
Definition field_text (py_repr : pyval -> string) (article : list (string * pyval))
    (key placeholder : string) : string :=
  match dict_get article key with
  | Some v => py_str py_repr v
  | None => placeholder
  end.

(** ** Sample worlds *)

(** A response with a success status and this JSON body. *)
Definition json_response (body : pyval) : response :=
  {| raise_for_status := Ok tt; json := Ok body |}.

(** A world from the outcome of the price request, the outcome of the news
    request and the outcome of each send. *)
Definition world_of (price news : result response) (send : nat -> send_outcome)
    : world := {|
  environ := fun _ => Some "secret";
  requests_get := fun url _ =>
    if String.eqb url STOCK_ENDPOINT then price else news;
  messages_create := fun n _ _ _ _ => send n
|}.

Definition daily (closes : list (string * string)) : result response :=
  Ok (json_response (PDict [("Time Series (Daily)", series closes)])).

Definition headlines (articles : list pyval) : result response :=
  Ok (json_response (PDict [("status", PStr "ok"); ("articles", PList articles)])).

(** A messaging provider that fails the second send of a run. *)
Definition second_send_fails : world :=
  world_of (Raise (RequestException "offline")) (Raise (RequestException "offline"))
    (fun n => if (n =? 1)%nat then Failed "HTTP 500" else Sent "queued").

(** The provider answers with a rate-limit note instead of the series. *)
Definition rate_limited : world :=
  world_of (Ok (json_response (PDict [("Note", PStr "Thank you for using Alpha Vantage!")])))
    (headlines []) (fun _ => Sent "queued").

(** The price moved by exactly one percent. *)
Definition one_percent_day : world :=
  world_of (daily [("2024-01-03", "100.00"); ("2024-01-02", "99.00")])
    (headlines [PDict [("title", PStr "Tesla Inc rallies")]])
    (fun _ => Sent "queued").

(** The price moved by four percent and the news provider times out. *)
Definition news_timeout : world :=
  world_of (daily [("2024-01-03", "219.00"); ("2024-01-02", "210.00")])
    (Raise (RequestException "Read timed out."))
    (fun _ => Sent "queued").

(** The provider sends a series of one bar. *)
Definition single_bar : world :=
  world_of (daily [("2024-01-03", "219.00")])
    (headlines [PDict [("title", PStr "Tesla Inc rallies")]])
    (fun _ => Sent "queued").

(** The price moved by four percent, two articles came back, and the
    messaging provider fails the second send. *)
Definition busy_day : world :=
  world_of (daily [("2024-01-03", "219.00"); ("2024-01-02", "210.00")])
    (headlines [PDict [("title", PStr "Tesla Inc rallies");
                       ("description", PStr "Shares rose.")];
                PDict [("title", PStr "Tesla Inc recalls"); ("description", PNone)]])
    (fun n => if (n =? 1)%nat then Failed "HTTP 500" else Sent "queued").

(** No repr is needed where every rendered value is a string or [None]. *)
Definition no_repr (v : pyval) : string := "".

(** ** More readings of values, traces and worlds *)

Definition is_dict (v : pyval) : bool :=
  match v with
  | PDict _ => true
  | _ => false
  end.

Definition is_nan (x : float) : bool :=
  match x with
  | S754_nan => true
  | _ => false
  end.

Definition is_infinite (x : float) : bool :=
  match x with
  | S754_infinity _ => true
  | _ => false
  end.

Definition is_finite_nonzero (x : float) : bool :=
  match x with
  | S754_finite _ _ _ => true
  | _ => false
  end.

(** The exception is caught by [except requests.exceptions.RequestException]. *)
Definition is_request_exception (e : exn) : bool :=
  match e with
  | RequestException _ => true
  | _ => false
  end.

Definition is_get (e : event) : bool :=
  match e with
  | Get _ _ => true
  | _ => false
  end.

(** The requests made so far. *)
Definition gets (t : trace) : list event := filter is_get t.

(** The parameters of the two requests. *)
Definition stock_params (stock_symbol : string) (api_key : pyval)
    : list (string * pyval) :=
  [("function", PStr "TIME_SERIES_DAILY");
   ("symbol", PStr stock_symbol);
   ("apikey", api_key)].

Definition news_params (company_name : string) (api_key : pyval)
    : list (string * pyval) :=
  [("apiKey", api_key);
   ("qInTitle", PStr company_name);
   ("language", PStr "en");
   ("sortBy", PStr "relevancy")].

(** The client the main block gives the notifier. *)
Definition twilio_client (w : world) : client :=
  Client (getenv w "TWILIO_ACCOUNT_SID") (getenv w "TWILIO_AUTH_TOKEN").

(** The trace of a run up to the end of a news request. *)
Definition through_news (w : world) : trace :=
  [Called "get_stock_data"; price_request w;
   Called "calculate_price_difference";
   Called "get_news_articles"; news_request w].

(** The block the formatter makes of an article that is a dict. *)
Definition block_of (py_repr : pyval -> string) (stock_symbol : string)
    (diff_percent : Z) (up_down_emoji : string)
    (article : list (string * pyval)) : string :=
  message_layout stock_symbol diff_percent up_down_emoji
    (field_text py_repr article "title" NO_TITLE)
    (field_text py_repr article "description" NO_DESCRIPTION).

(** The provider answers 429 with the series in the body all the same. *)
Definition too_many_requests : world :=
  world_of
    (Ok {| raise_for_status := Raise (RequestException "429 Client Error");
           json := Ok (PDict [("Time Series (Daily)",
                               series [("2024-01-03", "219.00");
                                       ("2024-01-02", "210.00")])]) |})
    (headlines []) (fun _ => Sent "queued").

(** The price moved by four percent and no article matches. *)
Definition no_matches : world :=
  world_of (daily [("2024-01-03", "219.00"); ("2024-01-02", "210.00")])
    (headlines []) (fun _ => Sent "queued").

(** The price moved by four percent and the news provider answers with an
    error object that has no articles. *)
Definition news_error_payload : world :=
  world_of (daily [("2024-01-03", "219.00"); ("2024-01-02", "210.00")])
    (Ok (json_response (PDict [("status", PStr "error");
                               ("code", PStr "apiKeyInvalid")])))
    (fun _ => Sent "queued").

(** The provider sends a zero close. *)
Definition zero_close_day : world :=
  world_of (daily [("2024-01-03", "0.00"); ("2024-01-02", "210.00")])
    (headlines []) (fun _ => Sent "queued").

(** Line 59, or 60, on one bar: its close as a float. *)
Definition close_of (b : pyval) : result float :=
  (v <- py_getitem b "4. close" ;; py_float v)%result.

(** The failures of a close that has no usable value: the conversion errors
    of [float] and the division by a zero close. *)
Definition invalid_price (e : exn) : bool :=
  match e with
  | ValueError => true
  | TypeError => true
  | OverflowError => true
  | ZeroDivisionError => true
  | _ => false
  end.

Definition is_printed (e : event) : bool :=
  match e with
  | Printed _ => true
  | _ => false
  end.

(** What the script has printed. *)
Definition reports (t : trace) : list event := filter is_printed t.

(** The provider sends a series of one bar whose close is no number. *)
Definition unreadable_single_bar : world :=
  world_of (daily [("2024-01-03", "n/a")])
    (headlines [PDict [("title", PStr "Tesla Inc rallies")]])
    (fun _ => Sent "queued").

(** * Properties *)

(** ** Signs in binary64 arithmetic *)

(** Rounding keeps the sign it is given. *)
Lemma binary_round_aux_sign (p m : Z) (sx : bool) (mx ex : Z) (lx : location)
    (s : bool) (mz : positive) (ez : Z) :
  binary_round_aux p m sx mx ex lx = S754_finite s mz ez -> s = sx.
Proof.
  unfold binary_round_aux.
  destruct (shr_fexp p m mx ex lx) as [mrs' e'].
  destruct (shr_fexp p m _ e' loc_Exact) as [mrs'' e''].
  destruct (shr_m mrs''); try discriminate.
  destruct (e'' <=? m - p); intros H; inversion H; reflexivity.
Qed.

Lemma round_half_even_nonneg (m : positive) (e : Z) : 0 <= round_half_even m e.
Proof.
  unfold round_half_even.
  destruct e as [|k|k]; [lia | | ].
  - apply Z.mul_nonneg_nonneg; [lia | apply Z.pow_nonneg; lia].
  - assert (Hd : 0 < 2 ^ Zpos k) by (apply Z.pow_pos_nonneg; lia).
    pose proof (Z.div_pos (Zpos m) (2 ^ Zpos k) ltac:(lia) Hd) as Hq.
    cbv zeta.
    destruct (2 * (Zpos m mod 2 ^ Zpos k) ?= 2 ^ Zpos k); try lia.
    destruct (Z.even (Zpos m / 2 ^ Zpos k)); lia.
Qed.

(** A rounded value that is not zero comes from a finite float of its sign. *)
Lemma py_round_sign (x : float) (p : Z) :
  py_round x = Ok p -> p <> 0 ->
  exists m e, x = S754_finite (p <? 0) m e.
Proof.
  destruct x as [s| s| |s m e]; simpl; intros H Hp; try discriminate.
  - inversion H. lia.
  - inversion H as [Hv]. exists m, e.
    pose proof (round_half_even_nonneg m e).
    destruct s.
    + replace (- round_half_even m e <? 0) with true; [reflexivity|].
      symmetry. apply Z.ltb_lt. lia.
    + replace (round_half_even m e <? 0) with false; [reflexivity|].
      symmetry. apply Z.ltb_ge. lia.
Qed.

Lemma fmul_hundred_sign (q : float) (s : bool) (m : positive) (e : Z) :
  fmul q (float_of_Z 100) = S754_finite s m e ->
  exists mq eq, q = S754_finite s mq eq.
Proof.
  change (float_of_Z 100) with (S754_finite false 7036874417766400 (-46)).
  unfold fmul.
  destruct q as [sq| sq| |sq mq eq]; simpl; try discriminate.
  intros H. apply binary_round_aux_sign in H. subst s.
  exists mq, eq. destruct sq; reflexivity.
Qed.

Lemma fdiv_finite_sign (x y : float) (s : bool) (m : positive) (e : Z) :
  fdiv x y = S754_finite s m e ->
  exists sx mx ex sy my ey,
    x = S754_finite sx mx ex /\ y = S754_finite sy my ey /\ s = xorb sx sy.
Proof.
  unfold fdiv.
  destruct x as [sx| sx| |sx mx ex], y as [sy| sy| |sy my ey];
    simpl; try discriminate.
  destruct (SFdiv_core_binary prec emax (Zpos mx) ex (Zpos my) ey) as [[mz ez] lz].
  intros H. apply binary_round_aux_sign in H.
  exists sx, mx, ex, sy, my, ey. auto.
Qed.

(** ** The change calculator *)

Lemma UP_not_DOWN : UP <> DOWN.
Proof. discriminate. Qed.

(** The calculator on a series with two bars or more whose first two closes
    convert: everything after the conversions. *)
Lemma calculate_two_bars (d0 d1 : string) (b0 b1 v0 v1 : pyval)
    (rest : list (string * pyval)) (c0 c1 : float) :
  py_getitem b0 "4. close" = Ok v0 -> py_float v0 = Ok c0 ->
  py_getitem b1 "4. close" = Ok v1 -> py_float v1 = Ok c1 ->
  calculate_price_difference (PDict ((d0, b0) :: (d1, b1) :: rest)) =
    (quotient <- py_truediv (fsub c0 c1) c0 ;;
     percent <- py_round (fmul quotient (float_of_Z 100)) ;;
     Ok (percent, if fltb fzero (fsub c0 c1) then UP else DOWN))%result.
Proof.
  intros H0 F0 H1 F1.
  unfold calculate_price_difference.
  cbn [py_items rbind map snd list_getitem nth_error].
  rewrite H0. cbn [rbind]. rewrite F0. cbn [rbind].
  rewrite H1. cbn [rbind]. rewrite F1. cbn [rbind].
  reflexivity.
Qed.

(** C1.  On a series whose first two bars in iteration order have the closes
    [c0] (most recent) and [c1], the calculator is
    [round((c0 - c1) / c0 * 100)] with direction up exactly when
    [c0 - c1 > 0] and down otherwise, a zero difference giving down; bars
    after the second play no part.  On the closes 219.00 and 210.00 it
    returns 4 and up. *)
Theorem change_calculator_formula (d0 d1 : string) (b0 b1 v0 v1 : pyval)
    (rest : list (string * pyval)) (c0 c1 : float) :
  py_getitem b0 "4. close" = Ok v0 -> py_float v0 = Ok c0 ->
  py_getitem b1 "4. close" = Ok v1 -> py_float v1 = Ok c1 ->
  let difference := fsub c0 c1 in
  let direction := if fltb fzero difference then UP else DOWN in
  calculate_price_difference (PDict ((d0, b0) :: (d1, b1) :: rest)) =
    (quotient <- py_truediv difference c0 ;;
     percent <- py_round (fmul quotient (float_of_Z 100)) ;;
     Ok (percent, direction))%result
  /\ (forall percent : Z,
        is_zero c0 = false ->
        py_round (fmul (fdiv difference c0) (float_of_Z 100)) = Ok percent ->
        calculate_price_difference (PDict ((d0, b0) :: (d1, b1) :: rest)) =
          Ok (percent, direction))
  /\ (direction = UP <-> fltb fzero difference = true)
  /\ (is_zero difference = true -> direction = DOWN)
  /\ calculate_price_difference
       (series [("2024-01-03", "219.00"); ("2024-01-02", "210.00")]) = Ok (4, UP).
Proof.
  intros H0 F0 H1 F1 difference direction.
  pose proof (calculate_two_bars d0 d1 b0 b1 v0 v1 rest c0 c1 H0 F0 H1 F1) as E.
  fold difference in E. fold direction in E.
  split; [exact E|].
  split.
  { intros percent Hz R. rewrite E. unfold py_truediv. rewrite Hz.
    cbn [rbind]. rewrite R. reflexivity. }
  split.
  { subst direction. destruct (fltb fzero difference).
    - split; reflexivity.
    - split; [intros H; symmetry in H; destruct (UP_not_DOWN H) | discriminate]. }
  split.
  { subst direction. destruct difference; simpl; try discriminate. reflexivity. }
  vm_compute. reflexivity.
Qed.

Lemma change_calculator_formula_witness :
  calculate_price_difference
    (series [("2024-01-03", "200.00"); ("2024-01-02", "210.00"); ("2024-01-01", "1.00")])
  = Ok (-5, DOWN).
Proof.
  refine (eq_trans
    (proj1 (change_calculator_formula "2024-01-03" "2024-01-02"
              (bar "200.00") (bar "210.00") (PStr "200.00") (PStr "210.00")
              [("2024-01-01", bar "1.00")]
              (S754_finite false 7036874417766400 (-45))
              (S754_finite false 7388718138654720 (-45)) _ _ _ _)) _);
    vm_compute; reflexivity.
Defined.

(** A series with fewer than two bars never gives a percent or a direction.
    The exception is [IndexError] when the bars that are there have numeric
    closes; when the close of the only bar cannot be read, it is the
    exception of that reading, raised before a second bar is asked for. *)
Lemma calculate_short_series (bars : list (string * pyval)) :
  (List.length bars < 2)%nat ->
  exists e : exn,
    calculate_price_difference (PDict bars) = Raise e /\
    (Forall numeric_bar (map snd bars) -> e = IndexError) /\
    (forall (d0 : string) (b0 : pyval) (e' : exn),
       bars = [(d0, b0)] -> close_of b0 = Raise e' -> e = e').
Proof.
  intros Hlen.
  destruct bars as [|[d0 b0] [|x rest]]; [| |simpl in Hlen; lia].
  - exists IndexError. split; [reflexivity|]. split; [auto | discriminate].
  - unfold calculate_price_difference.
    cbn [py_items rbind map snd list_getitem nth_error].
    destruct (py_getitem b0 "4. close") as [v0|e0] eqn:H0; cbn [rbind].
    + destruct (py_float v0) as [c0|e1] eqn:F0; cbn [rbind].
      * exists IndexError. split; [reflexivity|]. split; [auto|].
        intros d b e' Hb Hc. inversion Hb; subst. unfold close_of in Hc.
        rewrite H0 in Hc. cbn [rbind] in Hc. rewrite F0 in Hc. discriminate.
      * exists e1. split; [reflexivity|]. split.
        -- intros Hn. inversion Hn as [|? ? [v [c [Hv Hc]]] _]; subst.
           rewrite H0 in Hv. inversion Hv; subst. rewrite F0 in Hc. discriminate.
        -- intros d b e' Hb Hc. inversion Hb; subst. unfold close_of in Hc.
           rewrite H0 in Hc. cbn [rbind] in Hc. rewrite F0 in Hc.
           inversion Hc. reflexivity.
    + exists e0. split; [reflexivity|]. split.
      * intros Hn. inversion Hn as [|? ? [v [c [Hv Hc]]] _]; subst.
        rewrite H0 in Hv. discriminate.
      * intros d b e' Hb Hc. inversion Hb; subst. unfold close_of in Hc.
        rewrite H0 in Hc. inversion Hc. reflexivity.
Qed.

(** C4, as the code has it.  On a series with two bars or more whose most
    recent close is positive, a positive percent comes with direction up and
    a negative percent with direction down.  (A percent of zero comes with
    either direction; below a negative close the two directions swap.) *)
Theorem percent_sign_matches_direction (d0 d1 : string) (b0 b1 v0 v1 : pyval)
    (rest : list (string * pyval)) (c0 c1 : float) (percent : Z)
    (direction : string) :
  py_getitem b0 "4. close" = Ok v0 -> py_float v0 = Ok c0 ->
  py_getitem b1 "4. close" = Ok v1 -> py_float v1 = Ok c1 ->
  calculate_price_difference (PDict ((d0, b0) :: (d1, b1) :: rest)) =
    Ok (percent, direction) ->
  (fltb fzero c0 = true ->
     (0 < percent -> direction = UP) /\ (percent < 0 -> direction = DOWN))
  /\ (fltb c0 fzero = true ->
     (0 < percent -> direction = DOWN) /\ (percent < 0 -> direction = UP)).
Proof.
  intros H0 F0 H1 F1 E.
  rewrite (calculate_two_bars d0 d1 b0 b1 v0 v1 rest c0 c1 H0 F0 H1 F1) in E.
  unfold py_truediv in E.
  destruct (is_zero c0); [discriminate|]. cbn [rbind] in E.
  destruct (py_round (fmul (fdiv (fsub c0 c1) c0) (float_of_Z 100)))
    as [p|e] eqn:R; [|discriminate].
  cbn [rbind] in E. inversion E; subst p direction. clear E.
  assert (Hsign : percent <> 0 ->
            exists sx mx ex sy my ey,
              fsub c0 c1 = S754_finite sx mx ex /\ c0 = S754_finite sy my ey /\
              (percent <? 0) = xorb sx sy).
  { intros Hp.
    destruct (py_round_sign _ _ R Hp) as [m [e Hm]].
    destruct (fmul_hundred_sign _ _ _ _ Hm) as [mq [eq Hq]].
    exact (fdiv_finite_sign _ _ _ _ _ Hq). }
  split; intros Hc0; split; intros Hp;
    (destruct Hsign as [sx [mx [ex [sy [my [ey [Hd [Hy Hs]]]]]]]]; [lia|]);
    rewrite Hd; rewrite Hy in Hc0;
    destruct sx, sy; simpl in Hs, Hc0 |- *;
    try reflexivity; try discriminate;
    try (apply Z.ltb_lt in Hs; lia); try (apply Z.ltb_ge in Hs; lia).
Qed.

Lemma percent_sign_matches_direction_witness :
  (0 < 4 -> UP = UP) /\ (4 < 0 -> UP = DOWN).
Proof.
  refine (proj1 (percent_sign_matches_direction "2024-01-03" "2024-01-02"
            (bar "219.00") (bar "210.00") (PStr "219.00") (PStr "210.00") []
            (S754_finite false 7705377487454208 (-45))
            (S754_finite false 7388718138654720 (-45)) 4 UP _ _ _ _ _) _);
    vm_compute; reflexivity.
Defined.

(** C4 fails as stated: the closes 100.00 and 99.90 give a percent of 0,
    which is not positive, with direction up; and below a negative close a
    positive percent comes with direction down. *)
Lemma zero_percent_with_direction_up :
  let data := series [("2024-01-03", "100.00"); ("2024-01-02", "99.90")] in
  let negative := series [("2024-01-03", "-5.00"); ("2024-01-02", "-4.00")] in
  calculate_price_difference data = Ok (0, UP) /\
  calculate_price_difference negative = Ok (20, DOWN) /\
  ~ (forall (percent : Z) (direction : string),
       calculate_price_difference data = Ok (percent, direction) ->
       (0 < percent -> direction = UP) /\ (percent <= 0 -> direction = DOWN)) /\
  ~ (forall (percent : Z) (direction : string),
       calculate_price_difference negative = Ok (percent, direction) ->
       (0 < percent -> direction = UP) /\ (percent <= 0 -> direction = DOWN)).
Proof.
  intros data negative.
  assert (E : calculate_price_difference data = Ok (0, UP))
    by (vm_compute; reflexivity).
  assert (N : calculate_price_difference negative = Ok (20, DOWN))
    by (vm_compute; reflexivity).
  repeat split; try assumption.
  - intros H. destruct (H 0 UP E) as [_ Hdown].
    apply UP_not_DOWN, Hdown. lia.
  - intros H. destruct (H 20 DOWN N) as [Hup _].
    apply UP_not_DOWN. symmetry. apply Hup. lia.
Qed.

(** [float] raises nothing but its three conversion errors. *)
Lemma py_float_errors (v : pyval) (e : exn) :
  py_float v = Raise e -> e = ValueError \/ e = TypeError \/ e = OverflowError.
Proof.
  destruct v as [ |b|z|f|s|l|d]; cbn [py_float]; intros H;
    try discriminate; try (inversion H; auto).
  - destruct (float_of_Z z); inversion H; auto.
  - destruct (float_of_string s); inversion H; auto.
Qed.

Lemma non_numeric_raises (v : pyval) :
  non_numeric v = true ->
  py_float v = Raise match v with PStr _ => ValueError | _ => TypeError end.
Proof.
  destruct v as [ |b|z|f|s|l|d]; simpl; try discriminate; try reflexivity.
  destruct (float_of_string s); [discriminate | reflexivity].
Qed.

(** C8.  On a series whose first two bars carry a close, a most recent close
    that is zero or not numeric makes the calculator fail with an
    invalid-price error and return nothing: the [ValueError] or [TypeError]
    of [float] when the close is not numeric, [ZeroDivisionError] when it is
    zero and the close of the day before converts, and the conversion error
    of the close of the day before when that one does not convert. *)
Theorem invalid_close_fails (d0 d1 : string) (b0 b1 v0 v1 : pyval)
    (rest : list (string * pyval)) :
  py_getitem b0 "4. close" = Ok v0 ->
  py_getitem b1 "4. close" = Ok v1 ->
  non_numeric v0 = true \/
  (exists c0 : float, py_float v0 = Ok c0 /\ is_zero c0 = true) ->
  exists e : exn,
    calculate_price_difference (PDict ((d0, b0) :: (d1, b1) :: rest)) = Raise e /\
    invalid_price e = true /\
    (non_numeric v0 = true ->
     e = match v0 with PStr _ => ValueError | _ => TypeError end) /\
    (forall c1 : float,
       non_numeric v0 = false -> py_float v1 = Ok c1 -> e = ZeroDivisionError).
Proof.
  intros H0 H1 Hbad.
  unfold calculate_price_difference.
  cbn [py_items rbind map snd list_getitem nth_error].
  rewrite H0. cbn [rbind].
  destruct Hbad as [Hn | [c0 [F0 Hz]]].
  - rewrite (non_numeric_raises v0 Hn). cbn [rbind].
    eexists. split; [reflexivity|]. split; [destruct v0; reflexivity|].
    split; [reflexivity|]. intros c1 Hf. rewrite Hn in Hf. discriminate.
  - rewrite F0. cbn [rbind]. rewrite H1. cbn [rbind].
    assert (Hnn : non_numeric v0 = false).
    { destruct (non_numeric v0) eqn:Hn; [|reflexivity].
      rewrite (non_numeric_raises v0 Hn) in F0. discriminate. }
    destruct (py_float v1) as [c1|e1] eqn:F1; cbn [rbind].
    + unfold py_truediv. rewrite Hz. cbn [rbind].
      exists ZeroDivisionError. split; [reflexivity|]. split; [reflexivity|].
      split; [rewrite Hnn; discriminate | reflexivity].
    + exists e1. split; [reflexivity|]. split.
      * destruct (py_float_errors v1 e1 F1) as [-> | [-> | ->]]; reflexivity.
      * split; [rewrite Hnn; discriminate | discriminate].
Qed.

Lemma invalid_close_fails_witness :
  exists e : exn,
    calculate_price_difference
      (series [("2024-01-03", "0.00"); ("2024-01-02", "210.00")]) = Raise e /\
    invalid_price e = true /\
    (non_numeric (PStr "0.00") = true -> e = ValueError) /\
    (forall c1 : float,
       non_numeric (PStr "0.00") = false ->
       py_float (PStr "210.00") = Ok c1 -> e = ZeroDivisionError).
Proof.
  refine (invalid_close_fails "2024-01-03" "2024-01-02" (bar "0.00") (bar "210.00")
            (PStr "0.00") (PStr "210.00") [] _ _ _).
  - reflexivity.
  - reflexivity.
  - right. exists (S754_zero false). split; vm_compute; reflexivity.
Defined.

(** A most recent close that is not numeric, with a bar after it. *)
Example unreadable_close :
  calculate_price_difference
    (series [("2024-01-03", "n/a"); ("2024-01-02", "210.00")]) = Raise ValueError.
Proof. vm_compute. reflexivity. Qed.

(** ** Runs *)

Lemma get_stock_data_trace (stock_symbol : string) (api_key : pyval)
    (w : world) (t : trace) :
  get_stock_data stock_symbol api_key w t =
    ((t ++ [Get STOCK_ENDPOINT
              [("function", PStr "TIME_SERIES_DAILY");
               ("symbol", PStr stock_symbol);
               ("apikey", api_key)]])%list,
     snd (get_stock_data stock_symbol api_key w [])).
Proof.
  unfold get_stock_data, bind, get, lift. cbn [snd app].
  destruct (requests_get w _ _) as [r|e]; [|reflexivity].
  destruct (raise_for_status r) as [[]|e]; [|reflexivity].
  destruct (json r) as [body|e]; reflexivity.
Qed.

Lemma get_news_articles_trace (company_name : string) (api_key : pyval)
    (num_articles : Z) (w : world) (t : trace) :
  get_news_articles company_name api_key num_articles w t =
    ((t ++ [Get NEWS_ENDPOINT
              [("apiKey", api_key);
               ("qInTitle", PStr company_name);
               ("language", PStr "en");
               ("sortBy", PStr "relevancy")]])%list,
     snd (get_news_articles company_name api_key num_articles w [])).
Proof.
  unfold get_news_articles, bind, get, lift. cbn [snd app].
  destruct (requests_get w _ _) as [r|e]; [|reflexivity].
  destruct (raise_for_status r) as [[]|e]; [|reflexivity].
  destruct (json r) as [body|e]; [|reflexivity].
  destruct (py_getitem body "articles"); reflexivity.
Qed.

(** The main block up to the end of the price fetch. *)
Ltac start_run :=
  unfold run, main, call, print, py_exit, try_except_RequestException,
    environ_get, log, ret, lift, bind;
  cbn [app];
  rewrite get_stock_data_trace;
  match goal with
  | |- context [snd (get_stock_data STOCK_NAME (getenv ?w _) ?w [])] =>
      fold (price_fetch w); fold (price_request w)
  end.

(** C9, as the code has it.  A response whose JSON object has no
    daily-series key makes the price fetcher raise [KeyError].  Every failure
    of the price fetch ends the run with no change computed, no news fetched
    and no message formatted or sent.  The script reports the failure, and
    exits, for a request exception only; any other exception, the [KeyError]
    of the missing key among them, ends the run uncaught, and the script
    prints nothing. *)
Theorem price_fetch_failure_is_fatal (py_repr : pyval -> string) (w : world) :
  (forall (stock_symbol : string) (api_key : pyval) (t : trace) (r : response)
      (d : list (string * pyval)),
      requests_get w STOCK_ENDPOINT
        [("function", PStr "TIME_SERIES_DAILY");
         ("symbol", PStr stock_symbol);
         ("apikey", api_key)] = Ok r ->
      raise_for_status r = Ok tt ->
      json r = Ok (PDict d) ->
      dict_get d "Time Series (Daily)" = None ->
      snd (get_stock_data stock_symbol api_key w t) =
        Raise (KeyError "Time Series (Daily)"))
  /\ (forall e : exn,
        price_fetch w = Raise e ->
        no_partial_output (fst (run py_repr w)) /\
        run py_repr w =
          match e with
          | RequestException msg =>
              ([Called "get_stock_data"; price_request w;
                Printed (ABORT_REPORT ++ msg)], Raise SystemExit)
          | _ => ([Called "get_stock_data"; price_request w], Raise e)
          end /\
        reports (fst (run py_repr w)) =
          match e with
          | RequestException msg => [Printed (ABORT_REPORT ++ msg)]
          | _ => []
          end).
Proof.
  split.
  - intros stock_symbol api_key t r d Hget Hstatus Hjson Hkey.
    unfold get_stock_data, bind, get, lift. rewrite Hget.
    rewrite Hstatus, Hjson. cbn [snd py_getitem]. rewrite Hkey. reflexivity.
  - intros e He.
    assert (R : run py_repr w =
              match e with
              | RequestException msg =>
                  ([Called "get_stock_data"; price_request w;
                    Printed (ABORT_REPORT ++ msg)], Raise SystemExit)
              | _ => ([Called "get_stock_data"; price_request w], Raise e)
              end).
    { start_run. rewrite He. destruct e; reflexivity. }
    split; [|split; [exact R|]]; rewrite R; destruct e; reflexivity.
Qed.

Lemma price_fetch_failure_is_fatal_witness :
  no_partial_output (fst (run no_repr too_many_requests)) /\
  run no_repr too_many_requests =
    ([Called "get_stock_data"; price_request too_many_requests;
      Printed (ABORT_REPORT ++ "429 Client Error")], Raise SystemExit) /\
  reports (fst (run no_repr too_many_requests)) =
    [Printed (ABORT_REPORT ++ "429 Client Error")].
Proof.
  refine (proj2 (price_fetch_failure_is_fatal no_repr too_many_requests)
            (RequestException "429 Client Error") _).
  vm_compute. reflexivity.
Defined.

(** C9 fails as stated: when the provider answers with a rate-limit note in
    place of the series, the price fetch fails with [KeyError] and the run
    ends, but the script reports nothing: its trace holds the call and the
    request, and no print. *)
Lemma missing_key_leaves_no_report :
  price_fetch rate_limited = Raise (KeyError "Time Series (Daily)") /\
  run no_repr rate_limited =
    ([Called "get_stock_data"; price_request rate_limited],
     Raise (KeyError "Time Series (Daily)")) /\
  reports (fst (run no_repr rate_limited)) = [] /\
  snd (run no_repr rate_limited) <> Raise SystemExit.
Proof.
  assert (R : run no_repr rate_limited =
            ([Called "get_stock_data"; price_request rate_limited],
             Raise (KeyError "Time Series (Daily)")))
    by (vm_compute; reflexivity).
  split; [vm_compute; reflexivity|].
  split; [exact R|]. rewrite R. split; [reflexivity | discriminate].
Qed.

(** C3, as the code has it.  When the series the price fetch returns has
    fewer than two bars, the run ends in the calculator with an exception
    nothing catches, and no percent or direction is computed; nothing
    follows the calculator.  The exception is [IndexError] when the series is
    empty or its only bar has a numeric close; when the close of the only bar
    cannot be read, it is the exception of that reading. *)
Theorem short_series_fails (py_repr : pyval -> string) (w : world)
    (bars : list (string * pyval)) :
  price_fetch w = Ok (PDict bars) ->
  (List.length bars < 2)%nat ->
  exists e : exn,
    calculate_price_difference (PDict bars) = Raise e /\
    run py_repr w =
      ([Called "get_stock_data"; price_request w;
        Called "calculate_price_difference"], Raise e) /\
    no_news_no_messages (fst (run py_repr w)) /\
    (Forall numeric_bar (map snd bars) -> e = IndexError) /\
    (forall (d0 : string) (b0 : pyval) (e' : exn),
       bars = [(d0, b0)] -> close_of b0 = Raise e' -> e = e').
Proof.
  intros Hfetch Hlen.
  destruct (calculate_short_series bars Hlen) as [e [Hcalc [Hindex Hclose]]].
  exists e.
  assert (R : run py_repr w =
            ([Called "get_stock_data"; price_request w;
              Called "calculate_price_difference"], Raise e)).
  { start_run. rewrite Hfetch. cbn [app]. rewrite Hcalc. reflexivity. }
  repeat split; try assumption.
  rewrite R. reflexivity.
Qed.

Lemma short_series_fails_witness :
  exists e : exn,
    calculate_price_difference (series [("2024-01-03", "219.00")]) = Raise e /\
    run no_repr single_bar =
      ([Called "get_stock_data"; price_request single_bar;
        Called "calculate_price_difference"], Raise e) /\
    no_news_no_messages (fst (run no_repr single_bar)) /\
    (Forall numeric_bar (map snd [("2024-01-03", bar "219.00")]) -> e = IndexError) /\
    (forall (d0 : string) (b0 : pyval) (e' : exn),
       [("2024-01-03", bar "219.00")] = [(d0, b0)] ->
       close_of b0 = Raise e' -> e = e').
Proof.
  refine (short_series_fails no_repr single_bar
            [("2024-01-03", bar "219.00")] _ _).
  - vm_compute. reflexivity.
  - simpl. lia.
Defined.

(** C3 fails as stated: on a series of one bar whose close is [n/a], line 59
    raises [ValueError] before line 60 can ask for a second bar, so the run
    does not end with [IndexError], the failure of a series that is too
    short. *)
Lemma single_bar_without_numeric_close :
  let bars := [("2024-01-03", bar "n/a")] in
  (List.length bars < 2)%nat /\
  price_fetch unreadable_single_bar = Ok (PDict bars) /\
  calculate_price_difference (PDict bars) = Raise ValueError /\
  run no_repr unreadable_single_bar =
    ([Called "get_stock_data"; price_request unreadable_single_bar;
      Called "calculate_price_difference"], Raise ValueError) /\
  snd (run no_repr unreadable_single_bar) <> Raise IndexError.
Proof.
  cbv zeta. split; [simpl; lia|].
  split; [vm_compute; reflexivity|].
  split; [vm_compute; reflexivity|].
  assert (R : run no_repr unreadable_single_bar =
            ([Called "get_stock_data"; price_request unreadable_single_bar;
              Called "calculate_price_difference"], Raise ValueError))
    by (vm_compute; reflexivity).
  split; [exact R|]. rewrite R. discriminate.
Qed.

(** C2.  When the absolute value of the computed percent is at most the
    threshold (1, so a percent of exactly 1 included), the run prints the
    no-change report and is done: the news fetcher, the formatter and the
    notifier are not called and no send is attempted. *)
Theorem below_threshold_stops (py_repr : pyval -> string) (w : world)
    (data : pyval) (percent : Z) (direction : string) :
  price_fetch w = Ok data ->
  calculate_price_difference data = Ok (percent, direction) ->
  Z.abs percent <= PERCENTAGE_THRESHOLD ->
  run py_repr w =
    ([Called "get_stock_data"; price_request w;
      Called "calculate_price_difference";
      Printed (NO_CHANGE_REPORT percent)], Ok tt) /\
  no_news_no_messages (fst (run py_repr w)) /\
  creates (fst (run py_repr w)) = [].
Proof.
  intros Hfetch Hcalc Hgate.
  assert (R : run py_repr w =
            ([Called "get_stock_data"; price_request w;
              Called "calculate_price_difference";
              Printed (NO_CHANGE_REPORT percent)], Ok tt)).
  { start_run. rewrite Hfetch. cbn [app]. rewrite Hcalc.
    assert (G : (Z.abs percent >? PERCENTAGE_THRESHOLD) = false)
      by (rewrite Z.gtb_ltb; apply Z.ltb_ge; exact Hgate).
    rewrite G.
    reflexivity. }
  rewrite R. repeat split.
Qed.

Lemma below_threshold_stops_witness :
  run no_repr one_percent_day =
    ([Called "get_stock_data"; price_request one_percent_day;
      Called "calculate_price_difference";
      Printed (NO_CHANGE_REPORT 1)], Ok tt) /\
  no_news_no_messages (fst (run no_repr one_percent_day)) /\
  creates (fst (run no_repr one_percent_day)) = [].
Proof.
  refine (below_threshold_stops no_repr one_percent_day
            (series [("2024-01-03", "100.00"); ("2024-01-02", "99.00")])
            1 UP _ _ _).
  - vm_compute. reflexivity.
  - vm_compute. reflexivity.
  - vm_compute. discriminate.
Defined.

(** C5.  When the percent passes the threshold and the news fetch raises a
    request exception, the exception goes no further: it is reported, the
    run goes on with an empty list of articles, prints the no-articles
    report and is done, without formatting or sending a message. *)
Theorem news_failure_degrades (py_repr : pyval -> string) (w : world)
    (data : pyval) (percent : Z) (direction msg : string) :
  price_fetch w = Ok data ->
  calculate_price_difference data = Ok (percent, direction) ->
  PERCENTAGE_THRESHOLD < Z.abs percent ->
  news_fetch w = Raise (RequestException msg) ->
  run py_repr w =
    ([Called "get_stock_data"; price_request w;
      Called "calculate_price_difference";
      Called "get_news_articles"; news_request w;
      Printed (NEWS_ERROR_REPORT ++ msg);
      Printed NO_ARTICLES_REPORT], Ok tt) /\
  no_messages (fst (run py_repr w)).
Proof.
  intros Hfetch Hcalc Hgate Hnews.
  assert (R : run py_repr w =
            ([Called "get_stock_data"; price_request w;
              Called "calculate_price_difference";
              Called "get_news_articles"; news_request w;
              Printed (NEWS_ERROR_REPORT ++ msg);
              Printed NO_ARTICLES_REPORT], Ok tt)).
  { start_run. rewrite Hfetch. cbn [app]. rewrite Hcalc.
    assert (G : (Z.abs percent >? PERCENTAGE_THRESHOLD) = true)
      by (rewrite Z.gtb_ltb; apply Z.ltb_lt; exact Hgate).
    rewrite G.
    rewrite get_news_articles_trace. fold (news_fetch w). fold (news_request w).
    rewrite Hnews. reflexivity. }
  rewrite R. split; reflexivity.
Qed.

Lemma news_failure_degrades_witness :
  run no_repr news_timeout =
    ([Called "get_stock_data"; price_request news_timeout;
      Called "calculate_price_difference";
      Called "get_news_articles"; news_request news_timeout;
      Printed (NEWS_ERROR_REPORT ++ "Read timed out.");
      Printed NO_ARTICLES_REPORT], Ok tt) /\
  no_messages (fst (run no_repr news_timeout)).
Proof.
  refine (news_failure_degrades no_repr news_timeout
            (series [("2024-01-03", "219.00"); ("2024-01-02", "210.00")])
            4 UP "Read timed out." _ _ _ _);
    vm_compute; reflexivity.
Defined.

(** ** The notifier *)

Lemma creates_app (t t' : trace) : creates (t ++ t')%list = (creates t ++ creates t')%list.
Proof. unfold creates. apply filter_app. Qed.

Lemma creates_attempts (w : world) (c : client) (from_ to : string) (n : nat)
    (messages : list string) :
  creates (attempts w c from_ to n messages) =
    map (fun body => Create c body from_ to) messages.
Proof.
  revert n. induction messages as [|body rest IH]; intros n; [reflexivity|].
  cbn [attempts map]. unfold creates in *. cbn [filter is_create].
  destruct (messages_create w n c body from_ to); cbn [send_report filter is_create];
    rewrite IH; reflexivity.
Qed.

(** The notifier's trace: every message is tried, whatever became of the
    sends before it. *)
Lemma send_sms_messages_trace (w : world) (messages : list string)
    (sid token : pyval) (from_ to : string) (t : trace) :
  send_sms_messages messages sid token from_ to w t =
    ((t ++ attempts w (Client sid token) from_ to (List.length (creates t)) messages)%list,
     Ok tt).
Proof.
  unfold send_sms_messages. revert t.
  induction messages as [|body rest IH]; intros t.
  - cbn [for_each attempts]. unfold ret. rewrite app_nil_r. reflexivity.
  - cbn [for_each attempts]. unfold bind at 1. unfold bind at 1. unfold create.
    assert (Hn : List.length (creates (t ++ [Create (Client sid token) body from_ to;
                   send_report (messages_create w (List.length (creates t))
                                  (Client sid token) body from_ to)])%list) =
                 S (List.length (creates t))).
    { rewrite creates_app, length_app. unfold creates at 2. cbn [filter is_create].
      destruct (messages_create w _ _ body from_ to);
        cbn [send_report filter is_create List.length]; lia. }
    destruct (messages_create w (List.length (creates t)) (Client sid token) body from_ to)
      as [status|e] eqn:Ho; unfold print, log; cbn [send_report] in Hn;
      rewrite <- app_assoc; cbn [app]; rewrite IH, Hn, <- app_assoc; reflexivity.
Qed.

(** C6.  The notifier attempts one send for each message, in the order of
    the list, and reports each outcome; a send that fails changes nothing for
    the sends after it.  With three messages and a second send that fails,
    the first and the third are attempted all the same. *)
Theorem notifier_attempts_every_message (w : world) (messages : list string)
    (sid token : pyval) (from_ to : string) (t : trace) :
  let c := Client sid token in
  send_sms_messages messages sid token from_ to w t =
    ((t ++ attempts w c from_ to (List.length (creates t)) messages)%list, Ok tt)
  /\ creates (fst (send_sms_messages messages sid token from_ to w t)) =
       (creates t ++ map (fun body => Create c body from_ to) messages)%list
  /\ (forall m1 m2 m3 error : string,
        messages_create w 1 c m2 from_ to = Failed error ->
        send_sms_messages [m1; m2; m3] sid token from_ to w [] =
          ([Create c m1 from_ to;
            send_report (messages_create w 0 c m1 from_ to);
            Create c m2 from_ to;
            Printed ("Erro ao enviar SMS: " ++ error);
            Create c m3 from_ to;
            send_report (messages_create w 2 c m3 from_ to)], Ok tt))
  /\ creates (fst (send_sms_messages ["first"; "second"; "third"] sid token
                     from_ to second_send_fails [])) =
       [Create c "first" from_ to; Create c "second" from_ to;
        Create c "third" from_ to].
Proof.
  intros c. split; [apply send_sms_messages_trace|].
  split.
  { rewrite send_sms_messages_trace. cbn [fst].
    rewrite creates_app, creates_attempts. reflexivity. }
  split.
  { intros m1 m2 m3 error Hfail. rewrite send_sms_messages_trace.
    cbn [app creates filter List.length attempts]. fold c. rewrite Hfail. reflexivity. }
  rewrite send_sms_messages_trace. reflexivity.
Qed.

Lemma notifier_attempts_every_message_witness :
  send_sms_messages ["first"; "second"; "third"] (PStr "sid") (PStr "token")
      VIRTUAL_TWILIO_NUMBER VERIFIED_NUMBER second_send_fails [] =
    (let c := Client (PStr "sid") (PStr "token") in
     [Create c "first" VIRTUAL_TWILIO_NUMBER VERIFIED_NUMBER;
      Printed "Mensagem SMS enviada com status: queued";
      Create c "second" VIRTUAL_TWILIO_NUMBER VERIFIED_NUMBER;
      Printed "Erro ao enviar SMS: HTTP 500";
      Create c "third" VIRTUAL_TWILIO_NUMBER VERIFIED_NUMBER;
      Printed "Mensagem SMS enviada com status: queued"], Ok tt).
Proof.
  refine (proj1 (proj2 (proj2
    (notifier_attempts_every_message second_send_fails [] (PStr "sid")
       (PStr "token") VIRTUAL_TWILIO_NUMBER VERIFIED_NUMBER [])))
    "first" "second" "third" "HTTP 500" _).
  reflexivity.
Defined.

(** ** The formatter *)

Lemma string_app_assoc (a b c : string) : (a ++ b) ++ c = a ++ b ++ c.
Proof. induction a as [|x a IH]; simpl; [reflexivity | now rewrite IH]. Qed.

Lemma contains_intro (a t b : string) : contains (a ++ t ++ b) t.
Proof. exists a, b. reflexivity. Qed.

Lemma layout_not_empty (stock_symbol : string) (diff_percent : Z)
    (up_down_emoji headline brief : string) :
  message_layout stock_symbol diff_percent up_down_emoji headline brief <> "".
Proof.
  unfold message_layout. destruct stock_symbol; simpl; discriminate.
Qed.

(** A message holds the symbol, the direction with the percent, the headline
    and the summary it was laid out with. *)
Lemma layout_contains (stock_symbol : string) (diff_percent : Z)
    (up_down_emoji headline brief : string) :
  let block :=
    message_layout stock_symbol diff_percent up_down_emoji headline brief in
  contains block stock_symbol /\
  contains block (up_down_emoji ++ string_of_Z diff_percent ++ "%") /\
  contains block headline /\
  contains block brief.
Proof.
  unfold message_layout. repeat split.
  - apply (contains_intro "").
  - exists (stock_symbol ++ ": "),
      (NL ++ "Manchete: " ++ headline ++ ". " ++ NL ++ "Resumo: " ++ brief).
    now rewrite !string_app_assoc.
  - exists (stock_symbol ++ ": " ++ up_down_emoji ++ string_of_Z diff_percent
            ++ "%" ++ NL ++ "Manchete: "),
      (". " ++ NL ++ "Resumo: " ++ brief).
    now rewrite !string_app_assoc.
  - exists (stock_symbol ++ ": " ++ up_down_emoji ++ string_of_Z diff_percent
            ++ "%" ++ NL ++ "Manchete: " ++ headline ++ ". " ++ NL ++ "Resumo: "),
      "".
    rewrite !string_app_assoc. simpl.
    repeat f_equal. clear. induction brief as [|x b IH]; simpl; [reflexivity | now rewrite <- IH].
Qed.

Lemma format_article_dict (py_repr : pyval -> string) (stock_symbol : string)
    (diff_percent : Z) (up_down_emoji : string) (article : list (string * pyval)) :
  format_article py_repr stock_symbol diff_percent up_down_emoji (PDict article) =
    Ok (message_layout stock_symbol diff_percent up_down_emoji
          (field_text py_repr article "title" NO_TITLE)
          (field_text py_repr article "description" NO_DESCRIPTION)).
Proof.
  unfold format_article, py_get, field_text, message_layout.
  destruct (dict_get article "title"), (dict_get article "description"); reflexivity.
Qed.

Lemma format_news_articles_dicts (py_repr : pyval -> string)
    (articles : list (list (string * pyval))) (stock_symbol : string)
    (diff_percent : Z) (up_down_emoji : string) :
  format_news_articles py_repr (PList (map PDict articles)) stock_symbol
      diff_percent up_down_emoji =
    Ok (map (fun article =>
               message_layout stock_symbol diff_percent up_down_emoji
                 (field_text py_repr article "title" NO_TITLE)
                 (field_text py_repr article "description" NO_DESCRIPTION))
          articles).
Proof.
  unfold format_news_articles. cbn [py_iter rbind].
  induction articles as [|article rest IH]; [reflexivity|].
  cbn [map mapM]. rewrite format_article_dict. cbn [rbind].
  rewrite IH. reflexivity.
Qed.

(** C7.  On a list of articles the formatter does not fail and returns one
    block for each article, in the order of the list.  Each block holds the
    symbol, the direction followed by the percent, the headline (the text of
    the title, or the placeholder when the article has no title) and the
    summary (the text of the description, or the placeholder when it has
    none), and is not empty. *)
Theorem formatter_one_block_per_article (py_repr : pyval -> string)
    (articles : list (list (string * pyval))) (stock_symbol : string)
    (diff_percent : Z) (up_down_emoji : string) :
  exists blocks : list string,
    format_news_articles py_repr (PList (map PDict articles)) stock_symbol
      diff_percent up_down_emoji = Ok blocks /\
    List.length blocks = List.length articles /\
    Forall2 (fun article block =>
      contains block stock_symbol /\
      contains block (up_down_emoji ++ string_of_Z diff_percent ++ "%") /\
      (forall v, dict_get article "title" = Some v ->
                 contains block (py_str py_repr v)) /\
      (dict_get article "title" = None -> contains block NO_TITLE) /\
      (forall v, dict_get article "description" = Some v ->
                 contains block (py_str py_repr v)) /\
      (dict_get article "description" = None -> contains block NO_DESCRIPTION) /\
      block <> "") articles blocks.
Proof.
  eexists. split; [apply format_news_articles_dicts|].
  split; [apply length_map|].
  induction articles as [|article rest IH]; cbn [map]; constructor; [|exact IH].
  destruct (layout_contains stock_symbol diff_percent up_down_emoji
              (field_text py_repr article "title" NO_TITLE)
              (field_text py_repr article "description" NO_DESCRIPTION))
    as [Hs [Hd [Hh Hb]]].
  unfold field_text in *.
  repeat split; try assumption.
  - intros v Hv. rewrite Hv in *. exact Hh.
  - intros Hv. rewrite Hv in *. exact Hh.
  - intros v Hv. rewrite Hv in *. exact Hb.
  - intros Hv. rewrite Hv in *. exact Hb.
  - apply layout_not_empty.
Qed.

Lemma formatter_one_block_per_article_witness :
  exists blocks : list string,
    format_news_articles no_repr
      (PList (map PDict [[("title", PStr "Tesla Inc rallies")];
                         [("description", PStr "Shares rose.")]]))
      "TSLA" 4 UP = Ok blocks /\
    List.length blocks = 2%nat.
Proof.
  destruct (formatter_one_block_per_article no_repr
              [[("title", PStr "Tesla Inc rallies")];
               [("description", PStr "Shares rose.")]] "TSLA" 4 UP)
    as [blocks [E [L _]]].
  exists blocks. split; [exact E | exact L].
Defined.

(** C10.  For every article the formatter puts the placeholder exactly where
    the key ([title], [description]) is absent from the article.  Where the
    key is present, the text is that of its value: a null value gives the
    text [None], which is not the placeholder. *)
Theorem placeholder_only_for_absent_key (py_repr : pyval -> string)
    (articles : list (list (string * pyval))) (stock_symbol : string)
    (diff_percent : Z) (up_down_emoji : string) :
  exists blocks : list string,
    format_news_articles py_repr (PList (map PDict articles)) stock_symbol
      diff_percent up_down_emoji = Ok blocks /\
    Forall2 (fun article block =>
      exists headline brief : string,
        block = message_layout stock_symbol diff_percent up_down_emoji headline brief /\
        (dict_get article "title" = None -> headline = NO_TITLE) /\
        (forall v, dict_get article "title" = Some v -> headline = py_str py_repr v) /\
        (dict_get article "title" = Some PNone ->
           headline = "None" /\ headline <> NO_TITLE) /\
        (dict_get article "description" = None -> brief = NO_DESCRIPTION) /\
        (forall v, dict_get article "description" = Some v ->
                   brief = py_str py_repr v) /\
        (dict_get article "description" = Some PNone ->
           brief = "None" /\ brief <> NO_DESCRIPTION)) articles blocks.
Proof.
  eexists. split; [apply format_news_articles_dicts|].
  induction articles as [|article rest IH]; cbn [map]; constructor; [|exact IH].
  exists (field_text py_repr article "title" NO_TITLE),
    (field_text py_repr article "description" NO_DESCRIPTION).
  unfold field_text.
  split; [reflexivity|].
  repeat split; intros;
    match goal with
    | H : dict_get _ _ = _ |- _ => rewrite H
    end;
    solve [reflexivity | discriminate].
Qed.

Lemma placeholder_only_for_absent_key_witness :
  exists blocks : list string,
    format_news_articles no_repr
      (PList (map PDict [[("title", PStr "Tesla Inc rallies"); ("description", PNone)]]))
      "TSLA" 4 UP = Ok blocks /\
    Forall2 (fun article block =>
      exists headline brief : string,
        block = message_layout "TSLA" 4 UP headline brief /\
        (dict_get article "description" = Some PNone ->
           brief = "None" /\ brief <> NO_DESCRIPTION))
      [[("title", PStr "Tesla Inc rallies"); ("description", PNone)]] blocks.
Proof.
  destruct (placeholder_only_for_absent_key no_repr
              [[("title", PStr "Tesla Inc rallies"); ("description", PNone)]]
              "TSLA" 4 UP) as [blocks [E F]].
  exists blocks. split; [exact E|].
  revert F. apply Forall2_impl.
  intros article block [headline [brief [Hb [_ [_ [_ [_ [_ Hd]]]]]]]].
  exists headline, brief. split; [exact Hb | exact Hd].
Defined.

(** The formatter on a title and a null description. *)
Example format_null_description :
  format_news_articles no_repr
    (PList [PDict [("title", PStr "Tesla Inc rallies"); ("description", PNone)];
            PDict [("description", PStr "Shares rose.")]])
    "TSLA" 4 UP =
  Ok [message_layout "TSLA" 4 UP "Tesla Inc rallies" "None";
      message_layout "TSLA" 4 UP NO_TITLE "Shares rose."].
Proof. vm_compute. reflexivity. Qed.

(** ** A whole run *)

(** A significant change with two articles: both messages are attempted, the
    second send fails and is reported, and the run is done. *)
Example run_busy_day :
  run no_repr busy_day =
    (let c := Client (PStr "secret") (PStr "secret") in
     [Called "get_stock_data"; price_request busy_day;
      Called "calculate_price_difference";
      Called "get_news_articles"; news_request busy_day;
      Called "format_news_articles";
      Called "send_sms_messages";
      Create c (message_layout "TSLA" 4 UP "Tesla Inc rallies" "Shares rose.")
        VIRTUAL_TWILIO_NUMBER VERIFIED_NUMBER;
      Printed "Mensagem SMS enviada com status: queued";
      Create c (message_layout "TSLA" 4 UP "Tesla Inc recalls" "None")
        VIRTUAL_TWILIO_NUMBER VERIFIED_NUMBER;
      Printed "Erro ao enviar SMS: HTTP 500"], Ok tt).
Proof. vm_compute. reflexivity. Qed.

(** * Further properties *)

(** ** The two fetchers *)

(** X1.  The price fetcher makes one request, to the quote endpoint with the
    function, the symbol and the key, whatever comes of it; and it returns a
    value exactly when the request succeeds, the status is a success, the
    body decodes to a JSON object and the object has the daily-series key:
    the value is then the one under that key. *)
Theorem price_fetcher_success (stock_symbol : string) (api_key : pyval)
    (w : world) (t : trace) (v : pyval) :
  fst (get_stock_data stock_symbol api_key w t) =
    (t ++ [Get STOCK_ENDPOINT (stock_params stock_symbol api_key)])%list
  /\ (snd (get_stock_data stock_symbol api_key w t) = Ok v <->
      exists (r : response) (d : list (string * pyval)),
        requests_get w STOCK_ENDPOINT (stock_params stock_symbol api_key) = Ok r /\
        raise_for_status r = Ok tt /\
        json r = Ok (PDict d) /\
        dict_get d "Time Series (Daily)" = Some v).
Proof.
  unfold stock_params, get_stock_data, bind, get, lift.
  destruct (requests_get w _ _) as [r|e]; cbn [fst snd].
  2:{ split; [reflexivity|]. split; [discriminate|].
      intros [r [d [H _]]]. discriminate. }
  destruct (raise_for_status r) as [[]|e] eqn:Hs; cbn [fst snd].
  2:{ split; [reflexivity|]. split; [discriminate|].
      intros [r' [d [H [Hs' _]]]]. inversion H; subst r'. rewrite Hs in Hs'.
      discriminate. }
  destruct (json r) as [body|e] eqn:Hj; cbn [fst snd].
  2:{ split; [reflexivity|]. split; [discriminate|].
      intros [r' [d [H [_ [Hj' _]]]]]. inversion H; subst r'. rewrite Hj in Hj'.
      discriminate. }
  split; [reflexivity|]. split.
  - intros Hv. destruct body as [ |b|z|f|s|l|d]; try discriminate.
    exists r, d. cbn [py_getitem] in Hv.
    destruct (dict_get d "Time Series (Daily)"); [|discriminate].
    inversion Hv; subst. auto.
  - intros [r' [d [H [_ [Hj' Hk]]]]]. inversion H; subst r'.
    rewrite Hj in Hj'. inversion Hj'; subst body.
    cbn [py_getitem]. rewrite Hk. reflexivity.
Qed.

(** X2.  Both fetchers check the status before they read the body: when
    [raise_for_status] raises, the fetcher raises the same exception,
    whatever the body holds. *)
Theorem error_status_hides_body (w : world) (t : trace) (r : response) (e : exn)
    (stock_symbol company_name : string) (api_key : pyval) (num_articles : Z) :
  raise_for_status r = Raise e ->
  (requests_get w STOCK_ENDPOINT (stock_params stock_symbol api_key) = Ok r ->
   snd (get_stock_data stock_symbol api_key w t) = Raise e)
  /\ (requests_get w NEWS_ENDPOINT (news_params company_name api_key) = Ok r ->
      snd (get_news_articles company_name api_key num_articles w t) = Raise e).
Proof.
  intros Hs. split; intros Hg.
  - unfold stock_params in Hg. unfold get_stock_data, bind, get, lift.
    rewrite Hg, Hs. reflexivity.
  - unfold news_params in Hg. unfold get_news_articles, bind, get, lift.
    rewrite Hg, Hs. reflexivity.
Qed.

Lemma error_status_hides_body_witness :
  price_fetch too_many_requests = Raise (RequestException "429 Client Error").
Proof.
  refine (proj1 (error_status_hides_body too_many_requests []
            {| raise_for_status := Raise (RequestException "429 Client Error");
               json := Ok (PDict [("Time Series (Daily)",
                                   series [("2024-01-03", "219.00");
                                           ("2024-01-02", "210.00")])]) |}
            (RequestException "429 Client Error")
            STOCK_NAME COMPANY_NAME (PStr "secret") 3 _) _);
    reflexivity.
Defined.

(** X3.  When the news provider answers with a list of articles and
    [num_articles] is not negative, the news fetcher returns the first
    [num_articles] of them in the provider's order, or all of them when there
    are fewer: never more than [num_articles]. *)
Theorem news_fetcher_truncates (company_name : string) (api_key : pyval)
    (num_articles : Z) (w : world) (t : trace) (r : response)
    (d : list (string * pyval)) (l : list pyval) :
  requests_get w NEWS_ENDPOINT (news_params company_name api_key) = Ok r ->
  raise_for_status r = Ok tt ->
  json r = Ok (PDict d) ->
  dict_get d "articles" = Some (PList l) ->
  0 <= num_articles ->
  exists kept dropped : list pyval,
    snd (get_news_articles company_name api_key num_articles w t) = Ok (PList kept) /\
    l = (kept ++ dropped)%list /\
    List.length kept = Nat.min (Z.to_nat num_articles) (List.length l) /\
    (Z.of_nat (List.length kept) <= num_articles).
Proof.
  intros Hg Hs Hj Hk Hn.
  exists (firstn (Z.to_nat num_articles) l), (skipn (Z.to_nat num_articles) l).
  split; [|split; [|split]].
  - unfold news_params in Hg. unfold get_news_articles, bind, get, lift.
    rewrite Hg, Hs, Hj. cbn [snd py_getitem]. rewrite Hk.
    cbn [py_slice_to]. unfold slice_stop.
    destruct (num_articles <? 0) eqn:Hneg; [apply Z.ltb_lt in Hneg; lia|].
    reflexivity.
  - symmetry. apply firstn_skipn.
  - apply length_firstn.
  - rewrite length_firstn. lia.
Qed.

Lemma news_fetcher_truncates_witness :
  exists kept dropped : list pyval,
    snd (get_news_articles COMPANY_NAME (PStr "secret") 3
           (world_of (daily []) (headlines [PInt 1; PInt 2; PInt 3; PInt 4; PInt 5])
              (fun _ => Sent "queued")) []) = Ok (PList kept) /\
    [PInt 1; PInt 2; PInt 3; PInt 4; PInt 5] = (kept ++ dropped)%list /\
    List.length kept = Nat.min (Z.to_nat 3) 5 /\
    (Z.of_nat (List.length kept) <= 3).
Proof.
  refine (news_fetcher_truncates COMPANY_NAME (PStr "secret") 3
            (world_of (daily []) (headlines [PInt 1; PInt 2; PInt 3; PInt 4; PInt 5])
               (fun _ => Sent "queued")) []
            (json_response (PDict [("status", PStr "ok");
               ("articles", PList [PInt 1; PInt 2; PInt 3; PInt 4; PInt 5])]))
            [("status", PStr "ok");
             ("articles", PList [PInt 1; PInt 2; PInt 3; PInt 4; PInt 5])]
            [PInt 1; PInt 2; PInt 3; PInt 4; PInt 5] _ _ _ _ _);
    first [reflexivity | lia | discriminate].
Defined.

(** X4.  A negative [num_articles] is a slice bound counted from the end:
    the news fetcher then drops the last [- num_articles] articles and
    returns the others, or none when there are not that many. *)
Theorem news_fetcher_negative_count (company_name : string) (api_key : pyval)
    (num_articles : Z) (w : world) (t : trace) (r : response)
    (d : list (string * pyval)) (l : list pyval) :
  requests_get w NEWS_ENDPOINT (news_params company_name api_key) = Ok r ->
  raise_for_status r = Ok tt ->
  json r = Ok (PDict d) ->
  dict_get d "articles" = Some (PList l) ->
  num_articles < 0 ->
  exists kept dropped : list pyval,
    snd (get_news_articles company_name api_key num_articles w t) = Ok (PList kept) /\
    l = (kept ++ dropped)%list /\
    List.length dropped = Nat.min (Z.to_nat (- num_articles)) (List.length l).
Proof.
  intros Hg Hs Hj Hk Hn.
  set (k := Z.to_nat (Z.of_nat (List.length l) + num_articles)).
  exists (firstn k l), (skipn k l).
  split; [|split].
  - unfold news_params in Hg. unfold get_news_articles, bind, get, lift.
    rewrite Hg, Hs, Hj. cbn [snd py_getitem]. rewrite Hk.
    cbn [py_slice_to]. unfold slice_stop.
    destruct (num_articles <? 0) eqn:Hneg; [|apply Z.ltb_ge in Hneg; lia].
    reflexivity.
  - symmetry. apply firstn_skipn.
  - rewrite length_skipn. subst k. lia.
Qed.

Lemma news_fetcher_negative_count_witness :
  exists kept dropped : list pyval,
    snd (get_news_articles COMPANY_NAME (PStr "secret") (-1)
           (world_of (daily []) (headlines [PInt 1; PInt 2; PInt 3])
              (fun _ => Sent "queued")) []) = Ok (PList kept) /\
    [PInt 1; PInt 2; PInt 3] = (kept ++ dropped)%list /\
    List.length dropped = Nat.min (Z.to_nat (- (-1))) 3.
Proof.
  refine (news_fetcher_negative_count COMPANY_NAME (PStr "secret") (-1)
            (world_of (daily []) (headlines [PInt 1; PInt 2; PInt 3])
               (fun _ => Sent "queued")) []
            (json_response (PDict [("status", PStr "ok");
               ("articles", PList [PInt 1; PInt 2; PInt 3])]))
            [("status", PStr "ok"); ("articles", PList [PInt 1; PInt 2; PInt 3])]
            [PInt 1; PInt 2; PInt 3] _ _ _ _ _);
    first [reflexivity | lia | discriminate].
Defined.

(** ** More on the change calculator *)

(** The difference of a finite float with itself is [+0]. *)
Lemma fsub_diag (s : bool) (m : positive) (e : Z) :
  fsub (S754_finite s m e) (S754_finite s m e) = S754_zero false.
Proof.
  unfold fsub, SFsub. rewrite Z.sub_diag. reflexivity.
Qed.

(** X5.  When the closes of the first two bars convert to the same finite,
    nonzero number, the calculator returns a percent of 0 with the direction
    down, however the two closes are written. *)
Theorem unchanged_close_is_down (d0 d1 : string) (b0 b1 v0 v1 : pyval)
    (rest : list (string * pyval)) (c : float) :
  py_getitem b0 "4. close" = Ok v0 -> py_float v0 = Ok c ->
  py_getitem b1 "4. close" = Ok v1 -> py_float v1 = Ok c ->
  is_finite_nonzero c = true ->
  calculate_price_difference (PDict ((d0, b0) :: (d1, b1) :: rest)) = Ok (0, DOWN).
Proof.
  intros H0 F0 H1 F1 Hc.
  rewrite (calculate_two_bars d0 d1 b0 b1 v0 v1 rest c c H0 F0 H1 F1).
  destruct c as [s|s| |s m e]; try discriminate.
  rewrite fsub_diag. reflexivity.
Qed.

Lemma unchanged_close_is_down_witness :
  calculate_price_difference
    (series [("2024-01-03", "210.0"); ("2024-01-02", " 2.1e2")]) = Ok (0, DOWN).
Proof.
  refine (unchanged_close_is_down "2024-01-03" "2024-01-02"
            (bar "210.0") (bar " 2.1e2") (PStr "210.0") (PStr " 2.1e2") []
            (S754_finite false 7388718138654720 (-45)) _ _ _ _ _);
    vm_compute; reflexivity.
Defined.

(** X6.  The calculator returns a percent and a direction only on a dict
    with two items or more whose first two values have a [4. close] that
    [float] accepts, the first close not being zero; the result is then the
    rounded quotient and the direction of the difference of these two
    closes. *)
Theorem calculator_returns_only_on_two_closes (data : pyval) (percent : Z)
    (direction : string) :
  calculate_price_difference data = Ok (percent, direction) ->
  exists (d0 d1 : string) (b0 b1 v0 v1 : pyval) (rest : list (string * pyval))
         (c0 c1 : float),
    data = PDict ((d0, b0) :: (d1, b1) :: rest) /\
    py_getitem b0 "4. close" = Ok v0 /\ py_float v0 = Ok c0 /\
    py_getitem b1 "4. close" = Ok v1 /\ py_float v1 = Ok c1 /\
    is_zero c0 = false /\
    py_round (fmul (fdiv (fsub c0 c1) c0) (float_of_Z 100)) = Ok percent /\
    direction = (if fltb fzero (fsub c0 c1) then UP else DOWN).
Proof.
  unfold calculate_price_difference. intros H.
  destruct data as [ |b|z|f|s|l|d]; try discriminate.
  cbn [py_items rbind] in H.
  destruct d as [|[d0 b0] [|[d1 b1] rest]];
    cbn [map snd list_getitem nth_error rbind] in H; try discriminate.
  - destruct (py_getitem b0 "4. close") as [v0|]; [|discriminate].
    cbn [rbind] in H. destruct (py_float v0); discriminate.
  - destruct (py_getitem b0 "4. close") as [v0|] eqn:H0; [|discriminate].
    cbn [rbind] in H. destruct (py_float v0) as [c0|] eqn:F0; [|discriminate].
    cbn [rbind] in H.
    destruct (py_getitem b1 "4. close") as [v1|] eqn:H1; [|discriminate].
    cbn [rbind] in H. destruct (py_float v1) as [c1|] eqn:F1; [|discriminate].
    cbn [rbind] in H. unfold py_truediv in H.
    destruct (is_zero c0) eqn:Hz; [discriminate|]. cbn [rbind] in H.
    destruct (py_round (fmul (fdiv (fsub c0 c1) c0) (float_of_Z 100)))
      as [p|] eqn:R; [|discriminate].
    cbn [rbind] in H. inversion H; subst.
    exists d0, d1, b0, b1, v0, v1, rest, c0, c1. repeat split; assumption.
Qed.

Lemma calculator_returns_only_on_two_closes_witness :
  exists (d0 d1 : string) (b0 b1 v0 v1 : pyval) (rest : list (string * pyval))
         (c0 c1 : float),
    series [("2024-01-03", "200.00"); ("2024-01-02", "210.00")] =
      PDict ((d0, b0) :: (d1, b1) :: rest) /\
    py_getitem b0 "4. close" = Ok v0 /\ py_float v0 = Ok c0 /\
    py_getitem b1 "4. close" = Ok v1 /\ py_float v1 = Ok c1 /\
    is_zero c0 = false /\
    py_round (fmul (fdiv (fsub c0 c1) c0) (float_of_Z 100)) = Ok (-5) /\
    DOWN = (if fltb fzero (fsub c0 c1) then UP else DOWN).
Proof.
  refine (calculator_returns_only_on_two_closes
            (series [("2024-01-03", "200.00"); ("2024-01-02", "210.00")])
            (-5) DOWN _).
  vm_compute. reflexivity.
Defined.

(** X7.  A close that is not a finite number ([nan], [inf], [-inf], which
    [float] accepts) never gives a result.  When the most recent close is
    zero the division raises [ZeroDivisionError], whatever the close before
    it.  Otherwise [round] raises: [ValueError] when the most recent close is
    not finite or the one before is [nan], [OverflowError] when the most
    recent close is finite and the one before is infinite. *)
Theorem non_finite_close_fails (d0 d1 : string) (b0 b1 v0 v1 : pyval)
    (rest : list (string * pyval)) (c0 c1 : float) :
  py_getitem b0 "4. close" = Ok v0 -> py_float v0 = Ok c0 ->
  py_getitem b1 "4. close" = Ok v1 -> py_float v1 = Ok c1 ->
  let result := calculate_price_difference (PDict ((d0, b0) :: (d1, b1) :: rest)) in
  (is_zero c0 = true -> result = Raise ZeroDivisionError) /\
  (is_nan c0 || is_infinite c0 = true -> result = Raise ValueError) /\
  (is_finite_nonzero c0 = true -> is_nan c1 = true -> result = Raise ValueError) /\
  (is_finite_nonzero c0 = true -> is_infinite c1 = true ->
   result = Raise OverflowError) /\
  (is_nan c0 || is_infinite c0 || is_nan c1 || is_infinite c1 = true ->
   forall r : Z * string, result <> Ok r).
Proof.
  intros H0 F0 H1 F1 result. subst result.
  rewrite (calculate_two_bars d0 d1 b0 b1 v0 v1 rest c0 c1 H0 F0 H1 F1).
  change (float_of_Z 100) with (S754_finite false 7036874417766400 (-46)).
  assert (Hnf : is_nan c0 || is_infinite c0 = true ->
            (quotient <- py_truediv (fsub c0 c1) c0 ;;
             percent <- py_round
                          (fmul quotient (S754_finite false 7036874417766400 (-46))) ;;
             Ok (percent, if fltb fzero (fsub c0 c1) then UP else DOWN))%result
            = Raise ValueError).
  { destruct c0 as [s0|s0| |s0 m0 e0]; try discriminate; intros _.
    - destruct c1 as [s1|s1| |s1 m1 e1]; try reflexivity.
      destruct s0, s1; reflexivity.
    - destruct c1; reflexivity. }
  split; [|split; [exact Hnf|split; [|split]]].
  - intros Hz. unfold py_truediv. rewrite Hz. reflexivity.
  - destruct c0 as [s0|s0| |s0 m0 e0]; try discriminate; intros _.
    destruct c1; try discriminate. reflexivity.
  - destruct c0 as [s0|s0| |s0 m0 e0]; try discriminate; intros _.
    destruct c1 as [s1|s1| |s1 m1 e1]; try discriminate. reflexivity.
  - intros Hany r.
    destruct c0 as [s0|s0| |s0 m0 e0].
    + unfold py_truediv. cbn [is_zero rbind]. discriminate.
    + rewrite (Hnf eq_refl). discriminate.
    + rewrite (Hnf eq_refl). discriminate.
    + destruct c1 as [s1|s1| |s1 m1 e1]; try discriminate Hany; discriminate.
Qed.

Lemma non_finite_close_fails_witness :
  calculate_price_difference
    (series [("2024-01-03", "219.00"); ("2024-01-02", "nan")]) = Raise ValueError.
Proof.
  refine (proj1 (proj2 (proj2 (non_finite_close_fails "2024-01-03" "2024-01-02"
            (bar "219.00") (bar "nan") (PStr "219.00") (PStr "nan") []
            (S754_finite false 7705377487454208 (-45)) S754_nan _ _ _ _))) _ _);
    vm_compute; reflexivity.
Defined.

(** X8.  The calculator reads nothing but the [4. close] of the first two
    values of the dict: the dates, the other fields of the two bars and all
    the bars after them do not change what it returns or raises. *)
Theorem calculator_reads_two_closes (d0 d1 d0' d1' : string)
    (b0 b1 b0' b1' : pyval) (rest rest' : list (string * pyval)) :
  py_getitem b0 "4. close" = py_getitem b0' "4. close" ->
  py_getitem b1 "4. close" = py_getitem b1' "4. close" ->
  calculate_price_difference (PDict ((d0, b0) :: (d1, b1) :: rest)) =
  calculate_price_difference (PDict ((d0', b0') :: (d1', b1') :: rest')).
Proof.
  intros H0 H1. unfold calculate_price_difference.
  cbn [py_items rbind map snd list_getitem nth_error].
  rewrite H0, H1. reflexivity.
Qed.

Lemma calculator_reads_two_closes_witness :
  calculate_price_difference
    (PDict [("2024-01-03", PDict [("1. open", PStr "211.10"); ("4. close", PStr "219.00")]);
            ("2024-01-02", PDict [("4. close", PStr "210.00"); ("5. volume", PStr "100")]);
            ("2024-01-01", PDict [("4. close", PStr "n/a")])]) =
  calculate_price_difference
    (series [("yesterday", "219.00"); ("the day before", "210.00")]).
Proof.
  refine (calculator_reads_two_closes _ _ _ _ _ _ _ _ _ _ _ _); reflexivity.
Defined.

(** ** More on the formatter *)

Lemma format_article_not_dict (py_repr : pyval -> string) (stock_symbol : string)
    (diff_percent : Z) (up_down_emoji : string) (article : pyval) :
  is_dict article = false ->
  format_article py_repr stock_symbol diff_percent up_down_emoji article =
    Raise AttributeError.
Proof.
  destruct article; try discriminate; reflexivity.
Qed.

(** X9.  On a list the formatter is all or nothing: it returns the blocks of
    all the articles when every item is a dict, and raises [AttributeError],
    returning no block at all, as soon as one item is not (a [null] among the
    articles, say); it raises nothing else. *)
Theorem formatter_all_or_nothing (py_repr : pyval -> string) (items : list pyval)
    (stock_symbol : string) (diff_percent : Z) (up_down_emoji : string) :
  let result :=
    format_news_articles py_repr (PList items) stock_symbol diff_percent
      up_down_emoji in
  (forallb is_dict items = true <->
   exists blocks : list string,
     result = Ok blocks /\ List.length blocks = List.length items) /\
  (forallb is_dict items = false <-> result = Raise AttributeError) /\
  (forall e : exn, result = Raise e -> e = AttributeError).
Proof.
  cbv zeta. unfold format_news_articles. cbn [py_iter rbind].
  induction items as [|a rest IH].
  - cbn [mapM forallb]. repeat split; try discriminate.
    intros _. exists []. split; reflexivity.
  - destruct IH as [[IHok1 IHok2] [[IHbad1 IHbad2] IHe]].
    cbn [mapM forallb].
    destruct a as [ |b|z|f|s|l|d];
      try (cbn [is_dict andb];
           rewrite format_article_not_dict by reflexivity; cbn [rbind];
           repeat split; try discriminate; try reflexivity;
           [ intros [blocks [H _]]; discriminate
           | intros e H; inversion H; reflexivity ]).
    cbn [is_dict andb]. rewrite format_article_dict. cbn [rbind].
    destruct (mapM (format_article py_repr stock_symbol diff_percent up_down_emoji) rest)
      as [blocks|e] eqn:M; cbn [rbind].
    + assert (Hall : forallb is_dict rest = true).
      { destruct (forallb is_dict rest); [reflexivity|].
        specialize (IHbad1 eq_refl). discriminate. }
      rewrite Hall. repeat split; try discriminate.
      intros _. destruct (IHok1 Hall) as [blocks' [Hb Hl]].
      inversion Hb; subst blocks'. eexists. split; [reflexivity|].
      cbn [List.length]. rewrite Hl. reflexivity.
    + assert (He : e = AttributeError) by (apply IHe; reflexivity). subst e.
      rewrite (IHbad2 eq_refl). repeat split; try discriminate; try reflexivity.
      * intros [blocks [H _]]. discriminate.
      * intros e H. inversion H. reflexivity.
Qed.

(** X10.  A block depends on the title and the description of its article
    and on nothing else in it: two articles with the same two entries (or the
    same lack of them) give the same block. *)
Theorem formatter_reads_title_and_description (py_repr : pyval -> string)
    (stock_symbol : string) (diff_percent : Z) (up_down_emoji : string)
    (article article' : list (string * pyval)) :
  dict_get article "title" = dict_get article' "title" ->
  dict_get article "description" = dict_get article' "description" ->
  format_article py_repr stock_symbol diff_percent up_down_emoji (PDict article) =
  format_article py_repr stock_symbol diff_percent up_down_emoji (PDict article').
Proof.
  intros Ht Hd. rewrite !format_article_dict. unfold field_text.
  rewrite Ht, Hd. reflexivity.
Qed.

Lemma formatter_reads_title_and_description_witness :
  format_article no_repr "TSLA" 4 UP
    (PDict [("source", PDict [("name", PStr "Wire")]);
            ("title", PStr "Tesla Inc rallies");
            ("url", PStr "https://example.org/a")]) =
  format_article no_repr "TSLA" 4 UP (PDict [("title", PStr "Tesla Inc rallies")]).
Proof.
  refine (formatter_reads_title_and_description no_repr "TSLA" 4 UP _ _ _ _);
    reflexivity.
Defined.

(** ** More on the notifier *)

Lemma attempts_app (w : world) (c : client) (from_ to : string) (n : nat)
    (l1 l2 : list string) :
  attempts w c from_ to n (l1 ++ l2)%list =
    (attempts w c from_ to n l1
     ++ attempts w c from_ to (n + List.length l1) l2)%list.
Proof.
  revert n. induction l1 as [|body rest IH]; intros n.
  - cbn [app attempts List.length]. rewrite Nat.add_0_r. reflexivity.
  - cbn [app attempts List.length]. rewrite IH.
    replace (S n + List.length rest)%nat with (n + S (List.length rest))%nat by lia.
    reflexivity.
Qed.

(** X11.  Notifying of a list of messages in one call leaves the trace that
    notifying of a first part of it and then, in a second call, of the rest
    leaves: the sends carry no state from one message to the next but their
    number. *)
Theorem notifier_composes (w : world) (l1 l2 : list string) (sid token : pyval)
    (from_ to : string) (t : trace) :
  send_sms_messages (l1 ++ l2)%list sid token from_ to w t =
    send_sms_messages l2 sid token from_ to w
      (fst (send_sms_messages l1 sid token from_ to w t)).
Proof.
  rewrite !send_sms_messages_trace. cbn [fst].
  rewrite creates_app, creates_attempts, length_app, length_map, attempts_app.
  rewrite <- app_assoc. reflexivity.
Qed.

(** ** More on whole runs *)

(** Every run, by what the price fetch, the calculator, the news fetch and
    the formatter return or raise. *)
Lemma run_cases (py_repr : pyval -> string) (w : world) :
  run py_repr w =
    match price_fetch w with
    | Raise (RequestException msg) =>
        ([Called "get_stock_data"; price_request w;
          Printed (ABORT_REPORT ++ msg)], Raise SystemExit)
    | Raise e => ([Called "get_stock_data"; price_request w], Raise e)
    | Ok data =>
        match calculate_price_difference data with
        | Raise e =>
            ([Called "get_stock_data"; price_request w;
              Called "calculate_price_difference"], Raise e)
        | Ok (percent, direction) =>
            if Z.abs percent >? PERCENTAGE_THRESHOLD then
              match news_fetch w with
              | Raise (RequestException msg) =>
                  ((through_news w
                    ++ [Printed (NEWS_ERROR_REPORT ++ msg);
                        Printed NO_ARTICLES_REPORT])%list, Ok tt)
              | Raise e => (through_news w, Raise e)
              | Ok articles =>
                  if py_truthy articles then
                    match format_news_articles py_repr articles STOCK_NAME
                            percent direction with
                    | Raise e =>
                        ((through_news w ++ [Called "format_news_articles"])%list,
                         Raise e)
                    | Ok messages =>
                        ((through_news w
                          ++ [Called "format_news_articles";
                              Called "send_sms_messages"]
                          ++ attempts w (twilio_client w) VIRTUAL_TWILIO_NUMBER
                               VERIFIED_NUMBER 0 messages)%list, Ok tt)
                    end
                  else ((through_news w ++ [Printed NO_ARTICLES_REPORT])%list, Ok tt)
              end
            else
              ([Called "get_stock_data"; price_request w;
                Called "calculate_price_difference";
                Printed (NO_CHANGE_REPORT percent)], Ok tt)
        end
    end.
Proof.
  start_run.
  destruct (price_fetch w) as [data|e]; [|destruct e; reflexivity].
  cbn [app].
  destruct (calculate_price_difference data) as [[percent direction]|e];
    [|reflexivity].
  destruct (Z.abs percent >? PERCENTAGE_THRESHOLD); [|reflexivity].
  rewrite get_news_articles_trace. fold (news_fetch w). fold (news_request w).
  cbn [app].
  destruct (news_fetch w) as [articles|e]; [|destruct e; reflexivity].
  destruct (py_truthy articles); [|reflexivity].
  destruct (format_news_articles py_repr articles STOCK_NAME percent direction)
    as [messages|e]; [|reflexivity].
  rewrite send_sms_messages_trace. reflexivity.
Qed.

Lemma mapM_length {A B : Type} (f : A -> result B) (l : list A) (ys : list B) :
  mapM f l = Ok ys -> List.length ys = List.length l.
Proof.
  revert ys. induction l as [|x l IH]; intros ys H.
  - inversion H. reflexivity.
  - cbn [mapM] in H. destruct (f x) as [y|]; [|discriminate]. cbn [rbind] in H.
    destruct (mapM f l) as [ys'|]; [|discriminate]. cbn [rbind] in H.
    inversion H. cbn [List.length]. rewrite (IH ys' eq_refl). reflexivity.
Qed.

Lemma format_some_not_dict (py_repr : pyval -> string) (items : list pyval)
    (stock_symbol : string) (diff_percent : Z) (up_down_emoji : string) :
  forallb is_dict items = false ->
  format_news_articles py_repr (PList items) stock_symbol diff_percent
    up_down_emoji = Raise AttributeError.
Proof.
  unfold format_news_articles. cbn [py_iter rbind].
  induction items as [|a rest IH]; [discriminate|].
  cbn [forallb mapM]. destruct (is_dict a) eqn:Ha.
  - destruct a; try discriminate. rewrite format_article_dict. cbn [andb rbind].
    intros H. rewrite (IH H). reflexivity.
  - intros _. rewrite (format_article_not_dict _ _ _ _ _ Ha). reflexivity.
Qed.

(** What the news fetcher can return with the default of three articles: a
    list of at most three items, or a string. *)
Lemma news_fetch_shape (w : world) (articles : pyval) :
  news_fetch w = Ok articles ->
  (exists l : list pyval, articles = PList l /\ (List.length l <= 3)%nat) \/
  (exists s : string, articles = PStr s).
Proof.
  unfold news_fetch, get_news_articles, bind, get, lift.
  destruct (requests_get w _ _) as [r|]; [|discriminate].
  destruct (raise_for_status r) as [[]|]; [|discriminate].
  destruct (json r) as [body|]; [|discriminate].
  destruct (py_getitem body "articles") as [a|]; [|discriminate].
  cbn [snd]. destruct a as [ |b|z|f|s|l|d]; try discriminate;
    cbn [py_slice_to]; intros H; inversion H.
  - right. eexists. reflexivity.
  - left. exists (firstn (slice_stop (List.length l) 3) l).
    split; [reflexivity|].
    rewrite length_firstn. unfold slice_stop. cbn. lia.
Qed.

(** A string has no dict among its characters: the formatter returns blocks
    for the empty string only, and then none. *)
Lemma format_string (py_repr : pyval -> string) (s stock_symbol : string)
    (diff_percent : Z) (up_down_emoji : string) (messages : list string) :
  format_news_articles py_repr (PStr s) stock_symbol diff_percent up_down_emoji =
    Ok messages ->
  messages = [].
Proof.
  unfold format_news_articles. cbn [py_iter rbind].
  destruct (utf8_chars s) as [|c cs]; cbn [map mapM].
  - intros H. inversion H. reflexivity.
  - discriminate.
Qed.

Lemma creates_through_news (w : world) (t : trace) :
  creates (through_news w ++ t)%list = creates t.
Proof. reflexivity. Qed.

Lemma gets_attempts (w : world) (c : client) (from_ to : string) (n : nat)
    (messages : list string) :
  gets (attempts w c from_ to n messages) = [].
Proof.
  revert n. induction messages as [|body rest IH]; intros n; [reflexivity|].
  cbn [attempts]. unfold gets in *. cbn [filter is_get].
  destruct (messages_create w n c body from_ to); cbn [send_report filter is_get];
    apply IH.
Qed.

(** X12.  A significant change with articles: when the percent passes the
    threshold and the news fetch returns a list of articles that is not
    empty, the run formats them with the symbol, the percent and the
    direction of that day, attempts one send per article in the order of the
    list, from the virtual number to the verified number, and is done,
    whatever the outcomes of the sends. *)
Theorem significant_change_alerts (py_repr : pyval -> string) (w : world)
    (data : pyval) (percent : Z) (direction : string)
    (articles : list (list (string * pyval))) :
  price_fetch w = Ok data ->
  calculate_price_difference data = Ok (percent, direction) ->
  PERCENTAGE_THRESHOLD < Z.abs percent ->
  news_fetch w = Ok (PList (map PDict articles)) ->
  articles <> [] ->
  let blocks := map (block_of py_repr STOCK_NAME percent direction) articles in
  run py_repr w =
    ((through_news w
      ++ [Called "format_news_articles"; Called "send_sms_messages"]
      ++ attempts w (twilio_client w) VIRTUAL_TWILIO_NUMBER VERIFIED_NUMBER 0
           blocks)%list, Ok tt) /\
  creates (fst (run py_repr w)) =
    map (fun body =>
           Create (twilio_client w) body VIRTUAL_TWILIO_NUMBER VERIFIED_NUMBER)
      blocks.
Proof.
  intros Hfetch Hcalc Hgate Hnews Hne blocks.
  assert (R : run py_repr w =
            ((through_news w
              ++ [Called "format_news_articles"; Called "send_sms_messages"]
              ++ attempts w (twilio_client w) VIRTUAL_TWILIO_NUMBER
                   VERIFIED_NUMBER 0 blocks)%list, Ok tt)).
  { rewrite run_cases, Hfetch, Hcalc.
    assert (G : (Z.abs percent >? PERCENTAGE_THRESHOLD) = true)
      by (rewrite Z.gtb_ltb; apply Z.ltb_lt; exact Hgate).
    rewrite G, Hnews.
    assert (T : py_truthy (PList (map PDict articles)) = true)
      by (destruct articles; [contradiction | reflexivity]).
    rewrite T, format_news_articles_dicts. reflexivity. }
  split; [exact R|].
  rewrite R. cbn [fst]. rewrite creates_through_news.
  change (creates ([Called "format_news_articles"; Called "send_sms_messages"]
                   ++ ?t)%list) with (creates t).
  apply creates_attempts.
Qed.

Lemma significant_change_alerts_witness :
  creates (fst (run no_repr busy_day)) =
    map (fun body =>
           Create (twilio_client busy_day) body VIRTUAL_TWILIO_NUMBER VERIFIED_NUMBER)
      [message_layout "TSLA" 4 UP "Tesla Inc rallies" "Shares rose.";
       message_layout "TSLA" 4 UP "Tesla Inc recalls" "None"].
Proof.
  refine (proj2 (significant_change_alerts no_repr busy_day
            (series [("2024-01-03", "219.00"); ("2024-01-02", "210.00")]) 4 UP
            [[("title", PStr "Tesla Inc rallies"); ("description", PStr "Shares rose.")];
             [("title", PStr "Tesla Inc recalls"); ("description", PNone)]]
            _ _ _ _ _));
    first [vm_compute; reflexivity | discriminate].
Defined.

(** X13.  No run attempts more than three sends, whatever the three services
    answer: the news fetcher is called with its default of three articles
    and the notifier sends one message per article. *)
Theorem at_most_three_sends (py_repr : pyval -> string) (w : world) :
  (List.length (creates (fst (run py_repr w))) <= 3)%nat.
Proof.
  rewrite run_cases.
  destruct (price_fetch w) as [data|e]; [|destruct e; cbn; lia].
  destruct (calculate_price_difference data) as [[percent direction]|e];
    [|cbn; lia].
  destruct (Z.abs percent >? PERCENTAGE_THRESHOLD); [|cbn; lia].
  destruct (news_fetch w) as [articles|e] eqn:Hnews; [|destruct e; cbn; lia].
  destruct (py_truthy articles); [|cbn; lia].
  destruct (format_news_articles py_repr articles STOCK_NAME percent direction)
    as [messages|e] eqn:Hformat; [|cbn; lia].
  cbn [fst]. rewrite creates_through_news.
  change (creates ([Called "format_news_articles"; Called "send_sms_messages"]
                   ++ ?t)%list) with (creates t).
  rewrite creates_attempts, length_map.
  destruct (news_fetch_shape w articles Hnews) as [[l [-> Hl]] | [s ->]].
  - unfold format_news_articles in Hformat. cbn [py_iter rbind] in Hformat.
    rewrite (mapM_length _ _ _ Hformat). exact Hl.
  - rewrite (format_string _ _ _ _ _ _ Hformat). cbn. lia.
Qed.

(** X14.  A run attempts a send only after a significant change: when its
    trace holds a send, the price fetch returned a series, the calculator
    returned a percent beyond the threshold, the news fetch returned articles
    and the formatter returned at least one message. *)
Theorem sends_only_after_significant_change (py_repr : pyval -> string)
    (w : world) :
  creates (fst (run py_repr w)) <> [] ->
  exists (data : pyval) (percent : Z) (direction : string) (articles : pyval)
         (messages : list string),
    price_fetch w = Ok data /\
    calculate_price_difference data = Ok (percent, direction) /\
    PERCENTAGE_THRESHOLD < Z.abs percent /\
    news_fetch w = Ok articles /\
    py_truthy articles = true /\
    format_news_articles py_repr articles STOCK_NAME percent direction =
      Ok messages /\
    messages <> [].
Proof.
  rewrite run_cases.
  destruct (price_fetch w) as [data|e] eqn:Hfetch;
    [|destruct e; intros H; exfalso; apply H; reflexivity].
  destruct (calculate_price_difference data) as [[percent direction]|e] eqn:Hcalc;
    [|intros H; exfalso; apply H; reflexivity].
  destruct (Z.abs percent >? PERCENTAGE_THRESHOLD) eqn:G;
    [|intros H; exfalso; apply H; reflexivity].
  destruct (news_fetch w) as [articles|e] eqn:Hnews;
    [|destruct e; intros H; exfalso; apply H; reflexivity].
  destruct (py_truthy articles) eqn:T;
    [|intros H; exfalso; apply H; reflexivity].
  destruct (format_news_articles py_repr articles STOCK_NAME percent direction)
    as [messages|e] eqn:Hformat; [|intros H; exfalso; apply H; reflexivity].
  intros H. exists data, percent, direction, articles, messages.
  rewrite Z.gtb_ltb in G. apply Z.ltb_lt in G.
  repeat split; try assumption.
  intros ->. apply H. reflexivity.
Qed.

Lemma sends_only_after_significant_change_witness :
  exists (data : pyval) (percent : Z) (direction : string) (articles : pyval)
         (messages : list string),
    price_fetch busy_day = Ok data /\
    calculate_price_difference data = Ok (percent, direction) /\
    PERCENTAGE_THRESHOLD < Z.abs percent /\
    news_fetch busy_day = Ok articles /\
    py_truthy articles = true /\
    format_news_articles no_repr articles STOCK_NAME percent direction =
      Ok messages /\
    messages <> [].
Proof.
  refine (sends_only_after_significant_change no_repr busy_day _).
  vm_compute. discriminate.
Defined.

(** X15.  When the percent passes the threshold and the news fetch returns
    nothing ([if articles] is false: no article matched), the run prints the
    no-articles report and is done, with no message formatted or sent. *)
Theorem no_articles_no_messages (py_repr : pyval -> string) (w : world)
    (data : pyval) (percent : Z) (direction : string) (articles : pyval) :
  price_fetch w = Ok data ->
  calculate_price_difference data = Ok (percent, direction) ->
  PERCENTAGE_THRESHOLD < Z.abs percent ->
  news_fetch w = Ok articles ->
  py_truthy articles = false ->
  run py_repr w =
    ((through_news w ++ [Printed NO_ARTICLES_REPORT])%list, Ok tt) /\
  no_messages (fst (run py_repr w)).
Proof.
  intros Hfetch Hcalc Hgate Hnews Hempty.
  assert (R : run py_repr w =
            ((through_news w ++ [Printed NO_ARTICLES_REPORT])%list, Ok tt)).
  { rewrite run_cases, Hfetch, Hcalc.
    assert (G : (Z.abs percent >? PERCENTAGE_THRESHOLD) = true)
      by (rewrite Z.gtb_ltb; apply Z.ltb_lt; exact Hgate).
    rewrite G, Hnews, Hempty. reflexivity. }
  split; [exact R|]. rewrite R. reflexivity.
Qed.

Lemma no_articles_no_messages_witness :
  run no_repr no_matches =
    ((through_news no_matches ++ [Printed NO_ARTICLES_REPORT])%list, Ok tt) /\
  no_messages (fst (run no_repr no_matches)).
Proof.
  refine (no_articles_no_messages no_repr no_matches
            (series [("2024-01-03", "219.00"); ("2024-01-02", "210.00")]) 4 UP
            (PList []) _ _ _ _ _);
    vm_compute; reflexivity.
Defined.

(** X16.  Nothing catches an exception of the calculator: whatever it raises
    (a zero close, a close that is no number, a series that is no dict), the
    run ends there with that exception, without a report of its own, and
    nothing is requested from the news provider, formatted or sent. *)
Theorem calculator_failure_ends_run (py_repr : pyval -> string) (w : world)
    (data : pyval) (e : exn) :
  price_fetch w = Ok data ->
  calculate_price_difference data = Raise e ->
  run py_repr w =
    ([Called "get_stock_data"; price_request w;
      Called "calculate_price_difference"], Raise e) /\
  no_news_no_messages (fst (run py_repr w)).
Proof.
  intros Hfetch Hcalc.
  assert (R : run py_repr w =
            ([Called "get_stock_data"; price_request w;
              Called "calculate_price_difference"], Raise e)).
  { rewrite run_cases, Hfetch, Hcalc. reflexivity. }
  split; [exact R|]. rewrite R. reflexivity.
Qed.

Lemma calculator_failure_ends_run_witness :
  run no_repr zero_close_day =
    ([Called "get_stock_data"; price_request zero_close_day;
      Called "calculate_price_difference"], Raise ZeroDivisionError) /\
  no_news_no_messages (fst (run no_repr zero_close_day)).
Proof.
  refine (calculator_failure_ends_run no_repr zero_close_day
            (series [("2024-01-03", "0.00"); ("2024-01-02", "210.00")])
            ZeroDivisionError _ _);
    vm_compute; reflexivity.
Defined.

(** X17.  Only request exceptions of the news fetch are absorbed: when it
    raises anything else (the [KeyError] of an answer without [articles],
    say), the run ends there with that exception, without the no-articles
    report, and no message is formatted or sent. *)
Theorem other_news_failure_ends_run (py_repr : pyval -> string) (w : world)
    (data : pyval) (percent : Z) (direction : string) (e : exn) :
  price_fetch w = Ok data ->
  calculate_price_difference data = Ok (percent, direction) ->
  PERCENTAGE_THRESHOLD < Z.abs percent ->
  news_fetch w = Raise e ->
  is_request_exception e = false ->
  run py_repr w = (through_news w, Raise e) /\
  no_messages (fst (run py_repr w)).
Proof.
  intros Hfetch Hcalc Hgate Hnews He.
  assert (R : run py_repr w = (through_news w, Raise e)).
  { rewrite run_cases, Hfetch, Hcalc.
    assert (G : (Z.abs percent >? PERCENTAGE_THRESHOLD) = true)
      by (rewrite Z.gtb_ltb; apply Z.ltb_lt; exact Hgate).
    rewrite G, Hnews. destruct e; try reflexivity. discriminate. }
  split; [exact R|]. rewrite R. reflexivity.
Qed.

Lemma other_news_failure_ends_run_witness :
  run no_repr news_error_payload =
    (through_news news_error_payload, Raise (KeyError "articles")) /\
  no_messages (fst (run no_repr news_error_payload)).
Proof.
  refine (other_news_failure_ends_run no_repr news_error_payload
            (series [("2024-01-03", "219.00"); ("2024-01-02", "210.00")]) 4 UP
            (KeyError "articles") _ _ _ _ _);
    vm_compute; reflexivity.
Defined.

(** X18.  One article that is not a dict stops every message: when the
    percent passes the threshold and the news fetch returns a list with such
    an item, the run ends in the formatter with [AttributeError] and no send
    is attempted, for the well-formed articles either. *)
Theorem malformed_article_stops_all (py_repr : pyval -> string) (w : world)
    (data : pyval) (percent : Z) (direction : string) (items : list pyval) :
  price_fetch w = Ok data ->
  calculate_price_difference data = Ok (percent, direction) ->
  PERCENTAGE_THRESHOLD < Z.abs percent ->
  news_fetch w = Ok (PList items) ->
  forallb is_dict items = false ->
  run py_repr w =
    ((through_news w ++ [Called "format_news_articles"])%list,
     Raise AttributeError) /\
  creates (fst (run py_repr w)) = [].
Proof.
  intros Hfetch Hcalc Hgate Hnews Hbad.
  assert (R : run py_repr w =
            ((through_news w ++ [Called "format_news_articles"])%list,
             Raise AttributeError)).
  { rewrite run_cases, Hfetch, Hcalc.
    assert (G : (Z.abs percent >? PERCENTAGE_THRESHOLD) = true)
      by (rewrite Z.gtb_ltb; apply Z.ltb_lt; exact Hgate).
    rewrite G, Hnews.
    assert (T : py_truthy (PList items) = true)
      by (destruct items; [discriminate | reflexivity]).
    rewrite T, (format_some_not_dict _ _ _ _ _ Hbad). reflexivity. }
  split; [exact R|]. rewrite R. reflexivity.
Qed.

Lemma malformed_article_stops_all_witness :
  let w := world_of (daily [("2024-01-03", "219.00"); ("2024-01-02", "210.00")])
             (headlines [PDict [("title", PStr "Tesla Inc rallies")]; PNone])
             (fun _ => Sent "queued") in
  run no_repr w =
    ((through_news w ++ [Called "format_news_articles"])%list,
     Raise AttributeError) /\
  creates (fst (run no_repr w)) = [].
Proof.
  refine (malformed_article_stops_all no_repr _
            (series [("2024-01-03", "219.00"); ("2024-01-02", "210.00")]) 4 UP
            [PDict [("title", PStr "Tesla Inc rallies")]; PNone] _ _ _ _ _);
    vm_compute; reflexivity.
Defined.

(** X19.  Every run starts with the price request and makes no request but
    that one and, at most once and after it, the news request. *)
Theorem requests_of_a_run (py_repr : pyval -> string) (w : world) :
  (exists rest : trace,
     fst (run py_repr w) = Called "get_stock_data" :: price_request w :: rest) /\
  (gets (fst (run py_repr w)) = [price_request w] \/
   gets (fst (run py_repr w)) = [price_request w; news_request w]).
Proof.
  rewrite run_cases.
  destruct (price_fetch w) as [data|e];
    [|destruct e; (split; [eexists; reflexivity | left; reflexivity])].
  destruct (calculate_price_difference data) as [[percent direction]|e];
    [|split; [eexists; reflexivity | left; reflexivity]].
  destruct (Z.abs percent >? PERCENTAGE_THRESHOLD);
    [|split; [eexists; reflexivity | left; reflexivity]].
  destruct (news_fetch w) as [articles|e];
    [|destruct e; (split; [eexists; reflexivity | right; reflexivity])].
  destruct (py_truthy articles);
    [|split; [eexists; reflexivity | right; reflexivity]].
  destruct (format_news_articles py_repr articles STOCK_NAME percent direction)
    as [messages|e]; [|split; [eexists; reflexivity | right; reflexivity]].
  split; [eexists; reflexivity|]. right.
  cbn [fst]. unfold through_news, gets. cbn [app filter is_get price_request news_request].
  fold (gets (attempts w (twilio_client w) VIRTUAL_TWILIO_NUMBER VERIFIED_NUMBER 0
                messages)).
  rewrite gets_attempts. reflexivity.
Qed.
